(** * Budget: recurring expenses, monthly total and cash needed until payday

    A shallow embedding of [script.js] (the totals of [updateTotals] and the
    projection of [calculateExpensesUntilPayday]) with the properties of its
    specification.

    Conventions of the embedding.
    - A JavaScript number is an IEEE 754 binary64 value: Rocq's primitive
      [float], with its own [+], [*] and [/].  Counts of days and of
      occurrences are integers, turned into numbers where the script
      multiplies by them.
    - A [Date] is its time value, an integer count of milliseconds.  The
      calendar follows ECMAScript's day, year and month functions.  The range
      limit of time values (8.64e15 ms) is not modelled.
    - The projection is embedded twice.  Module [Zoned] has it in a time
      zone, with UTC time values and the zone's offset applied where the
      script reads or builds a local date.  The definitions outside [Zoned]
      have it on a local clock without daylight-saving jumps, where local
      time and time value differ by a constant, which is left out: time
      values are then the readings of the local clock.  Lemma
      [calculate_fixedZone] relates the two.
    - [today] is the reading of the clock, [new Date()], passed as an
      argument.  Where a property relates dates to the calendar it is stated
      for a clock at or after the epoch, which reads a four-digit year.
    - The text of a form control is represented by what the script observes of
      it: whether it is empty, what [parseFloat] reads and what [parseInt]
      reads.
    - The two [while] loops take a bound on their number of iterations and
      return [None] when the bound is reached. *)

From Stdlib Require Import ZArith Lia List Bool String Ascii.
From Stdlib Require Import PrimFloat Uint63 Permutation.
From Stdlib Require Import Floats.
Import ListNotations.
Local Open Scope Z_scope.

(** ** Constants (script.js, lines 2-4) *)

Definition DAYS_IN_MONTH : Z := 31.
Definition DAYS_IN_WEEK : Z := 7.
Definition MS_PER_DAY : Z := 1000 * 60 * 60 * 24.

(** ** JavaScript numbers *)

Module Num.

Definition number := float.

(** An integer that the script computes (a count of days or of
    occurrences), as a number.  Exact below 2^53. *)
Definition of_Z (n : Z) : number :=
  if n <? 0 then PrimFloat.opp (PrimFloat.of_uint63 (Uint63.of_Z (- n)))
  else PrimFloat.of_uint63 (Uint63.of_Z n).

(** ToBoolean on a number: [NaN], [+0] and [-0] are falsy. *)
Definition truthy (x : number) : bool :=
  negb (PrimFloat.is_nan x || PrimFloat.is_zero x).

(** [x || d] on numbers. *)
Definition or_else (x d : number) : number := if truthy x then x else d.

End Num.

Abbreviation number := Num.number.

(** ** Form control values *)

(** The text of an [<input>] or [<select>].  [Blank] is the empty string (or a
    control that is missing, which [?.value] turns into [undefined]: both are
    falsy).  [Text f i] is a non-empty string, [f] being what [parseFloat]
    reads from it ([nan] when it has no numeric prefix) and [i] what
    [parseInt] reads ([None] for [NaN]). *)
Inductive value : Type :=
| Blank
| Text (asFloat : number) (asInt : option Z).

Definition parseFloat (v : value) : number :=
  match v with
  | Blank => PrimFloat.nan
  | Text f _ => f
  end.

Definition parseInt (v : value) : option Z :=
  match v with
  | Blank => None
  | Text _ i => i
  end.

(** ** Dates (ECMAScript, "Date objects": days, years, months) *)

Module Date.

Definition Day (t : Z) : Z := t / MS_PER_DAY.
Definition TimeWithinDay (t : Z) : Z := t mod MS_PER_DAY.

Definition DaysInYear (y : Z) : Z :=
  if negb (y mod 4 =? 0) then 365
  else if negb (y mod 100 =? 0) then 366
  else if negb (y mod 400 =? 0) then 365
  else 366.

Definition DayFromYear (y : Z) : Z :=
  365 * (y - 1970) + (y - 1969) / 4 - (y - 1901) / 100 + (y - 1601) / 400.

(** The year of a day number: the largest [y] with [DayFromYear y <= d]
    (lemma [YearFromDay_spec] below), found from an estimate that is off by
    one at most. *)
Definition YearFromDay (d : Z) : Z :=
  let y := 1970 + (400 * d) / 146097 in
  if DayFromYear (y + 1) <=? d then y + 1
  else if d <? DayFromYear y then y - 1
  else y.

Definition YearFromTime (t : Z) : Z := YearFromDay (Day t).

Definition InLeapYear (t : Z) : Z :=
  if DaysInYear (YearFromTime t) =? 366 then 1 else 0.

Definition DayWithinYear (t : Z) : Z :=
  Day t - DayFromYear (YearFromTime t).

Definition MonthFromTime (t : Z) : Z :=
  let d := DayWithinYear t in
  let leap := InLeapYear t in
  if d <? 31 then 0
  else if d <? 59 + leap then 1
  else if d <? 90 + leap then 2
  else if d <? 120 + leap then 3
  else if d <? 151 + leap then 4
  else if d <? 181 + leap then 5
  else if d <? 212 + leap then 6
  else if d <? 243 + leap then 7
  else if d <? 273 + leap then 8
  else if d <? 304 + leap then 9
  else if d <? 334 + leap then 10
  else 11.

Definition DateFromTime (t : Z) : Z :=
  let d := DayWithinYear t in
  let leap := InLeapYear t in
  match MonthFromTime t with
  | 0 => d + 1
  | 1 => d - 30
  | 2 => d - 58 - leap
  | 3 => d - 89 - leap
  | 4 => d - 119 - leap
  | 5 => d - 150 - leap
  | 6 => d - 180 - leap
  | 7 => d - 211 - leap
  | 8 => d - 242 - leap
  | 9 => d - 272 - leap
  | 10 => d - 303 - leap
  | _ => d - 333 - leap
  end.

Definition WeekDay (t : Z) : Z := (Day t + 4) mod 7.

(** Day number, within its year, of the first day of month [mn] (0..11). *)
Definition MonthStart (leap mn : Z) : Z :=
  match mn with
  | 0 => 0
  | 1 => 31
  | 2 => 59 + leap
  | 3 => 90 + leap
  | 4 => 120 + leap
  | 5 => 151 + leap
  | 6 => 181 + leap
  | 7 => 212 + leap
  | 8 => 243 + leap
  | 9 => 273 + leap
  | 10 => 304 + leap
  | _ => 334 + leap
  end.

(** [MakeDay]: months outside 0..11 carry into the year, and the day of the
    month is added as it is, so that a day past the end of the month lands
    in a later month. *)
Definition MakeDay (year month date : Z) : Z :=
  let ym := year + month / 12 in
  let mn := month mod 12 in
  let leap := if DaysInYear ym =? 366 then 1 else 0 in
  DayFromYear ym + MonthStart leap mn + date - 1.

Definition MakeDate (day time : Z) : Z := day * MS_PER_DAY + time.

(** [new Date(year, month, date)]: midnight of that day; a year from 0 to 99
    stands for 1900 + year. *)
Definition make (year month date : Z) : Z :=
  let yr := if (0 <=? year) && (year <=? 99) then 1900 + year else year in
  MakeDate (MakeDay yr month date) 0.

Definition getFullYear (t : Z) : Z := YearFromTime t.
Definition getMonth (t : Z) : Z := MonthFromTime t.
Definition getDate (t : Z) : Z := DateFromTime t.
Definition getDay (t : Z) : Z := WeekDay t.

(** [d.setDate(date)] and [d.setMonth(month)]: the new time value of [d]. *)
Definition setDate (t date : Z) : Z :=
  MakeDate (MakeDay (YearFromTime t) (MonthFromTime t) date) (TimeWithinDay t).

Definition setMonth (t month : Z) : Z :=
  MakeDate (MakeDay (YearFromTime t) month (DateFromTime t)) (TimeWithinDay t).

(** Number of days of month [m] (0..11) of year [y]. *)
Definition DaysInMonth (y m : Z) : Z :=
  match m with
  | 1 => if DaysInYear y =? 366 then 29 else 28
  | 3 | 5 | 8 | 10 => 30
  | _ => 31
  end.

(** The month after month [m] of year [y], as (year, month). *)
Definition next_month (y m : Z) : Z * Z :=
  if m =? 11 then (y + 1, 0) else (y, m + 1).

(** A time value from a calendar date and a clock time, to write examples:
    [at_clock y m d h mi] is day [d] of month [m] (1..12) at [h]:[mi]. *)
Definition at_clock (y m d h mi : Z) : Z :=
  MakeDate (MakeDay y (m - 1) d) ((h * 60 + mi) * 60000).

End Date.


(** ** The page: expense items, containers and the form *)

(** One [.expense-item]: the values of its name, amount and day controls.  A
    daily item has no day control; its [day] is [Blank] and is never read. *)
Record expense : Type := mkExpense {
  name : value;
  amount : value;
  day : value
}.

(** The [elements] cache, as far as the totals read it: the items of the three
    containers, in document order, and the [pay-day] select. *)
Record elements : Type := mkElements {
  monthlyContainer : list expense;
  weeklyContainer : list expense;
  dailyContainer : list expense;
  payDayInput : value
}.

Definition entry : Type := string * value.

Definition controls (kind : string) (hasDay : bool) (e : expense) : list entry :=
  [ ((kind ++ "-name")%string, name e); ((kind ++ "-amount")%string, amount e) ]
  ++ (if hasDay then [ ((kind ++ "-day")%string, day e) ] else []).

(** Modelled from the spec: the page (index.html) with the form and the three
    item templates is not among the sources.  [new FormData(elements.form)]
    lists the named controls in document order; they are taken as the spec's
    persisted shape has them: the monthly items, the weekly items, the daily
    items, each as name, amount, day (no day for a daily item), and the
    [pay-day] select. *)
Definition FormData (els : elements) : list entry :=
  flat_map (controls "monthly" true) (monthlyContainer els)
  ++ flat_map (controls "weekly" true) (weeklyContainer els)
  ++ flat_map (controls "daily" false) (dailyContainer els)
  ++ [ ("pay-day"%string, payDayInput els) ].

(** ** updateTotals: the monthly total (script.js, lines 130-146) *)

Definition endsWith (s suffix : string) : bool :=
  let n := String.length s in
  let k := String.length suffix in
  (k <=? n)%nat && String.eqb (substring (n - k) k s) suffix.

(** [DAYS_IN_MONTH / DAYS_IN_WEEK], a binary64 division. *)
Definition weeklyMultiplier : number :=
  (Num.of_Z DAYS_IN_MONTH / Num.of_Z DAYS_IN_WEEK)%float.

(** The [multipliers] object; [None] is [undefined]. *)
Definition multipliers (key : string) : option number :=
  if String.eqb key "monthly-amount" then Some (Num.of_Z 1)
  else if String.eqb key "weekly-amount" then Some weeklyMultiplier
  else if String.eqb key "daily-amount" then Some (Num.of_Z DAYS_IN_MONTH)
  else None.

(** [multipliers[name] || 0]. *)
Definition multiplierOrZero (key : string) : number :=
  match multipliers key with
  | Some m => Num.or_else m PrimFloat.zero
  | None => PrimFloat.zero
  end.

(** The callback of [reduce]. *)
Definition addEntry (total : number) (e : entry) : number :=
  (total + Num.or_else (parseFloat (snd e)) PrimFloat.zero
           * multiplierOrZero (fst e))%float.

Definition monthlyTotalOf (entries : list entry) : number :=
  fold_left addEntry
    (filter (fun e => endsWith (fst e) "-amount") entries)
    PrimFloat.zero.

Definition monthlyTotal (els : elements) : number :=
  monthlyTotalOf (FormData els).

(** [formData.get(key)]: the value of the first entry of that name. *)
Fixpoint formGet (entries : list entry) (key : string) : option value :=
  match entries with
  | [] => None
  | (k, v) :: rest => if String.eqb k key then Some v else formGet rest key
  end.

(** [parseInt(formData.get("pay-day")) || 25]. *)
Definition payDayOf (entries : list entry) : Z :=
  match formGet entries "pay-day" with
  | Some v =>
      match parseInt v with
      | Some n => if n =? 0 then 25 else n
      | None => 25
      end
  | None => 25
  end.

(** ** calculateExpensesUntilPayday (script.js, lines 157-237) *)

(** The payday date (lines 164-167). *)
Definition payDayDate (today payDay : Z) : Z :=
  let currentDay := Date.getDate today in
  let currentMonth := Date.getMonth today in
  let currentYear := Date.getFullYear today in
  if payDay <=? currentDay
  then Date.make currentYear (currentMonth + 1) payDay
  else Date.make currentYear currentMonth payDay.

(** [parseFloat(control?.value || 0)] (lines 170-171): a blank value reads as
    0, any other text goes through [parseFloat] as it is. *)
Definition getExpenseAmount (v : value) : number :=
  match v with
  | Blank => PrimFloat.zero
  | Text f _ => f
  end.

(** [Math.ceil(a / b)] for integers [a] and [b > 0].  The script divides two
    numbers; for time values less than 2^27 days apart the binary64 quotient
    has the same ceiling as the exact one. *)
Definition ceilDiv (a b : Z) : Z := - ((- a) / b).

(** [daysUntilPayday] after the edge-case test (lines 178-183), on a clock of
    constant offset; [Zoned.daysUntilPayday] is the same in a time zone. *)
Definition daysUntilPayday (today payDay : Z) : Z :=
  let currentDay := Date.getDate today in
  let currentMonth := Date.getMonth today in
  let payDayDate := payDayDate today payDay in
  if (currentDay =? payDay) && (Date.getMonth payDayDate =? currentMonth)
  then 1
  else ceilDiv (payDayDate - today) MS_PER_DAY.

Definition dailyStep (today payDay : Z) (total : number) (e : expense) : number :=
  let amount := getExpenseAmount (amount e) in
  (total + amount * Num.of_Z (Z.max 0 (daysUntilPayday today payDay)))%float.

Definition dailyExpenses (els : elements) (today payDay : Z) : number :=
  fold_left (dailyStep today payDay) (dailyContainer els) PrimFloat.zero.

(** [nextOccurrence.getDay() !== targetDay], [targetDay] being [NaN] when
    [None]. *)
Definition differs (weekday : Z) (targetDay : option Z) : bool :=
  match targetDay with
  | Some d => negb (weekday =? d)
  | None => true
  end.

(** The first loop (lines 201-203), at most [fuel] tests of its condition. *)
Fixpoint findNextOccurrence (fuel : nat) (today : Z) (targetDay : option Z)
    (nextOccurrence : Z) : option Z :=
  match fuel with
  | O => None
  | S fuel' =>
      if differs (Date.getDay nextOccurrence) targetDay
         || (nextOccurrence <=? today)
      then findNextOccurrence fuel' today targetDay
             (Date.setDate nextOccurrence (Date.getDate nextOccurrence + 1))
      else Some nextOccurrence
  end.

(** The second loop (lines 206-210), at most [fuel] tests of its condition. *)
Fixpoint countOccurrences (fuel : nat) (payDayDate nextOccurrence occurrences : Z)
    : option Z :=
  match fuel with
  | O => None
  | S fuel' =>
      if nextOccurrence <? payDayDate
      then countOccurrences fuel' payDayDate
             (Date.setDate nextOccurrence
                (Date.getDate nextOccurrence + DAYS_IN_WEEK))
             (occurrences + 1)
      else Some occurrences
  end.

(** The occurrences of one weekly item: both loops in sequence. *)
Definition weeklyOccurrences (fuel : nat) (today payDayDate : Z)
    (targetDay : option Z) : option Z :=
  match findNextOccurrence fuel today targetDay today with
  | Some nextOccurrence => countOccurrences fuel payDayDate nextOccurrence 0
  | None => None
  end.

Definition weeklyStep (fuel : nat) (today payDayDate : Z) (total : number)
    (e : expense) : option number :=
  let amount := getExpenseAmount (amount e) in
  match day e with
  | Blank => Some total
  | Text _ targetDay =>
      match weeklyOccurrences fuel today payDayDate targetDay with
      | Some occurrences => Some (total + amount * Num.of_Z occurrences)%float
      | None => None
      end
  end.

(** [reduce] with a callback that may not return. *)
Fixpoint reduceM {A B : Type} (f : B -> A -> option B) (l : list A) (acc : B)
    : option B :=
  match l with
  | [] => Some acc
  | x :: rest =>
      match f acc x with
      | Some acc' => reduceM f rest acc'
      | None => None
      end
  end.

Definition weeklyExpenses (fuel : nat) (els : elements) (today payDay : Z)
    : option number :=
  reduceM (weeklyStep fuel today (payDayDate today payDay))
    (weeklyContainer els) PrimFloat.zero.

(** [parseInt(control?.value || 1)] (lines 220-222). *)
Definition dayOfMonthOf (v : value) : option Z :=
  match v with
  | Blank => Some 1
  | Text _ i => i
  end.

(** The date of a monthly expense (lines 225-230). *)
Definition expenseDate (today dayOfMonth : Z) : Z :=
  let currentDay := Date.getDate today in
  let currentMonth := Date.getMonth today in
  let currentYear := Date.getFullYear today in
  let expenseDate := Date.make currentYear currentMonth dayOfMonth in
  if dayOfMonth <=? currentDay
  then Date.setMonth expenseDate (Date.getMonth expenseDate + 1)
  else expenseDate.

(** With a day that is [NaN] the date is invalid: [dayOfMonth <= currentDay]
    and [expenseDate < payDayDate] are both false and the total is kept. *)
Definition monthlyStep (today payDay : Z) (total : number) (e : expense) : number :=
  let amount := getExpenseAmount (amount e) in
  match dayOfMonthOf (day e) with
  | None => total
  | Some dayOfMonth =>
      if expenseDate today dayOfMonth <? payDayDate today payDay
      then (total + amount)%float
      else total
  end.

Definition monthlyExpenses (els : elements) (today payDay : Z) : number :=
  fold_left (monthlyStep today payDay) (monthlyContainer els) PrimFloat.zero.

Definition calculateExpensesUntilPayday (fuel : nat) (els : elements)
    (today payDay : Z) : option number :=
  let daily := dailyExpenses els today payDay in
  match weeklyExpenses fuel els today payDay with
  | Some weekly =>
      Some (daily + weekly + monthlyExpenses els today payDay)%float
  | None => None
  end.

(** [updateTotals]: the two figures handed to [formatCurrency], [today] being
    the reading of the clock. *)
Definition updateTotals (fuel : nat) (els : elements) (today : Z)
    : number * option number :=
  let formData := FormData els in
  (monthlyTotalOf formData,
   calculateExpensesUntilPayday fuel els today (payDayOf formData)).

(** ** Writing items down *)

(** A control holding the decimal text of [f] (with integer part [i]). *)
Definition text (f : number) (i : Z) : value := Text f (Some i).
Arguments text f%_float i%_Z.

(** A control holding text that is not a number, such as [abc]. *)
Definition junk : value := Text PrimFloat.nan None.

(** The page of the worked example: a monthly expense of 50 on the 20th, a
    weekly expense of 10 on Wednesday, a daily expense of 2, pay day 25. *)
Definition ex3 : elements :=
  mkElements [mkExpense junk (text 50 50) (text 20 20)]
             [mkExpense junk (text 10 10) (text 3 3)]
             [mkExpense junk (text 2 2) Blank]
             (text 25 25).

(** Pages with a single item. *)
Definition oneDaily (a : value) : elements :=
  mkElements [] [] [mkExpense junk a Blank] (text 25 25).

Definition oneWeekly (a d : value) : elements :=
  mkElements [] [mkExpense junk a d] [] (text 25 25).

Definition oneMonthly (a d : value) : elements :=
  mkElements [mkExpense junk a d] [] [] (text 25 25).

(** Three monthly expenses of 0.1, 0.2 and 0.3, and the same in reverse
    order. *)
#[warnings="-inexact-float"]
Definition tenths123 : elements :=
  mkElements [mkExpense junk (text 0.1 0) (text 1 1);
              mkExpense junk (text 0.2 0) (text 1 1);
              mkExpense junk (text 0.3 0) (text 1 1)] [] [] (text 25 25).

#[warnings="-inexact-float"]
Definition tenths321 : elements :=
  mkElements [mkExpense junk (text 0.3 0) (text 1 1);
              mkExpense junk (text 0.2 0) (text 1 1);
              mkExpense junk (text 0.1 0) (text 1 1)] [] [] (text 25 25).

(** ** Notions of the specification *)

(** The calendar date of a time value: year, month (0..11), day. *)
Definition civil (t : Z) : Z * Z * Z :=
  (Date.getFullYear t, Date.getMonth t, Date.getDate t).

(** Where day [d] of month [m] of year [y] lands: in that month when the
    month has such a day, otherwise as many days into the next month as [d]
    exceeds the month's length. *)
Definition lands (y m d : Z) : Z * Z * Z :=
  if d <=? Date.DaysInMonth y m then (y, m, d)
  else (fst (Date.next_month y m), snd (Date.next_month y m),
        d - Date.DaysInMonth y m).



(** Days from a weekday to the next day, after it, that is weekday [target]:
    from 1 to 7. *)
Definition daysToNext (weekday target : Z) : Z := (target - weekday - 1) mod 7 + 1.

(** Number of dates [first], [first] + 7 days, [first] + 14 days, ... that are
    before [payDayDate]. *)
Definition occurrencesBefore (payDayDate first : Z) : Z :=
  Z.max 0 (ceilDiv (payDayDate - first) (DAYS_IN_WEEK * MS_PER_DAY)).

(** Enough tests for both loops of a weekly item. *)
Definition weeklyFuel (today payDayDate : Z) : nat :=
  Z.to_nat (8 + occurrencesBefore payDayDate today).

(** The month in which a monthly expense of day [d] is looked for: rolled to
    the next month when [d] is not after today's day of the month. *)
Definition expenseMonth (today d : Z) : Z * Z :=
  let y := Date.getFullYear today in
  let m := Date.getMonth today in
  if d <=? Date.getDate today then Date.next_month y m else (y, m).

(** The candidate date built in one step with [new Date]: day [d] of the
    current month, or of the next month when rolled. *)
Definition candidateDate (today d : Z) : Z :=
  let y := Date.getFullYear today in
  let m := Date.getMonth today in
  if d <=? Date.getDate today then Date.make y (m + 1) d else Date.make y m d.

(** The monthly candidate as the specification words it: day [d] of the
    current month, or of the next month when rolled. *)
Definition candidate_in_its_month (today d : Z) : Prop :=
  civil (expenseDate today d)
  = (fst (expenseMonth today d), snd (expenseMonth today d), d).

(** The amount of an item as the monthly total reads it,
    [parseFloat(value) || 0]. *)
Definition amountOrZero (v : value) : number :=
  Num.or_else (parseFloat v) PrimFloat.zero.

(** The monthly total as the specification writes it: every record
    contributes its amount times the factor of its cadence. *)
Definition contributions (els : elements) : list number :=
  map (fun e => amountOrZero (amount e) * 1)%float (monthlyContainer els)
  ++ map (fun e => amountOrZero (amount e) * (31 / 7))%float (weeklyContainer els)
  ++ map (fun e => amountOrZero (amount e) * 31)%float (dailyContainer els).

(** The numbers of a list added from left to right, from 0. *)
Definition sumOf (l : list number) : number :=
  fold_left PrimFloat.add l PrimFloat.zero.

(** Two pages whose containers hold the same items, in any order. *)
Definition permuted (a b : elements) : Prop :=
  Permutation (monthlyContainer a) (monthlyContainer b)
  /\ Permutation (weeklyContainer a) (weeklyContainer b)
  /\ Permutation (dailyContainer a) (dailyContainer b)
  /\ payDayInput a = payDayInput b.

(** ** Saving and loading (script.js, lines 32-42 and 239-332) *)

(** [field.split("-").pop()]: what follows the last hyphen of [s]. *)
Fixpoint lastSegmentFrom (s acc : string) : string :=
  match s with
  | EmptyString => acc
  | String c rest =>
      if Ascii.eqb c "-" then lastSegmentFrom rest EmptyString
      else lastSegmentFrom rest (acc ++ String c EmptyString)
  end.

Definition lastSegment (s : string) : string := lastSegmentFrom s EmptyString.

(** A plain object whose values are texts: its properties, in the order in
    which they were first set. *)
Definition object : Type := list (string * value).

Fixpoint objectSet (o : object) (key : string) (v : value) : object :=
  match o with
  | [] => [(key, v)]
  | (k, w) :: rest =>
      if String.eqb k key then (k, v) :: rest else (k, w) :: objectSet rest key v
  end.

(** [Object.fromEntries]: a later entry of the same key replaces the value. *)
Definition fromEntries (l : list (string * value)) : object :=
  fold_left (fun o kv => objectSet o (fst kv) (snd kv)) l [].

(** [control?.value || ""], [None] being a control that is not there. *)
Definition valueOrEmpty (control : option value) : value :=
  match control with
  | Some v => v
  | None => Blank
  end.

(** [Boolean] on a text: only the empty text is falsy. *)
Definition isFilled (v : value) : bool :=
  match v with
  | Blank => false
  | Text _ _ => true
  end.

(** The callback of [map] in [extractExpenseData] (lines 242-250), [None]
    being [null]; an item is given by its named controls. *)
Definition extractItem (fields : list string) (item : list entry) : option object :=
  let data :=
    fromEntries
      (map (fun field => (lastSegment field, valueOrEmpty (formGet item field)))
         fields) in
  if existsb (fun kv => isFilled (snd kv)) data then Some data else None.

(** [extractExpenseData] (lines 240-251): [filter(Boolean)] drops the
    [null]s. *)
Definition extractExpenseData (container : list (list entry))
    (fields : list string) : list object :=
  flat_map (fun item =>
              match extractItem fields item with
              | Some data => [data]
              | None => []
              end) container.

(** The value stored under [budgetData].  [JSON.stringify] and [JSON.parse]
    are taken together: of arrays and plain objects of texts they give back
    what was written. *)
Module Saved.

Record data : Type := mk {
  monthlyExpenses : list object;
  weeklyExpenses : list object;
  dailyExpenses : list object;
  payDay : option value
}.

End Saved.

(** [saveToLocalStorage] (lines 254-278): what it stores. *)
Definition saveToLocalStorage (els : elements) : Saved.data :=
  Saved.mk
    (extractExpenseData (map (controls "monthly" true) (monthlyContainer els))
       ["monthly-name"; "monthly-amount"; "monthly-day"]%string)
    (extractExpenseData (map (controls "weekly" true) (weeklyContainer els))
       ["weekly-name"; "weekly-amount"; "weekly-day"]%string)
    (extractExpenseData (map (controls "daily" false) (dailyContainer els))
       ["daily-name"; "daily-amount"]%string)
    (formGet (FormData els) "pay-day").

(** Modelled from the spec: the page with its three item templates is not
    among the sources.  A template is given by the values that the controls of
    a fresh clone hold; [afterUndefined key] is the text that the control
    named [key] holds after [undefined] is assigned to its value.  A control
    is taken to keep a text that is assigned to it, which holds of every text
    that a control of the same kind gave. *)
Record templates : Type := mkTemplates {
  monthlyTemplate : expense;
  weeklyTemplate : expense;
  dailyTemplate : expense;
  afterUndefined : string -> value
}.

(** [if (input) input.value = value] (lines 37-38) on an item of kind
    [kind]. *)
Definition setControl (pg : templates) (kind : string) (hasDay : bool)
    (e : expense) (key : string) (v : option value) : expense :=
  let assigned :=
    match v with
    | Some t => t
    | None => afterUndefined pg key
    end in
  if String.eqb key (kind ++ "-name") then mkExpense assigned (amount e) (day e)
  else if String.eqb key (kind ++ "-amount") then mkExpense (name e) assigned (day e)
  else if hasDay && String.eqb key (kind ++ "-day")
       then mkExpense (name e) (amount e) assigned
  else e.

(** [createExpenseItem] (lines 33-42): a clone of the template with the
    values of [data] assigned to the controls that it has. *)
Definition createExpenseItem (pg : templates) (kind : string) (hasDay : bool)
    (template : expense) (data : list (string * option value)) : expense :=
  fold_left (fun e kv => setControl pg kind hasDay e (fst kv) (snd kv)) data template.

(** [loadExpenses] (lines 294-303): the items are appended to the container. *)
Definition loadExpenses (pg : templates) (kind : string) (hasDay : bool)
    (template : expense) (expenses : list object) (container : list expense)
    : list expense :=
  container
  ++ map (fun o : object =>
            createExpenseItem pg kind hasDay template
              [ ((kind ++ "-name")%string, formGet o "name");
                ((kind ++ "-amount")%string, formGet o "amount");
                ((kind ++ "-day")%string, formGet o "day") ])
       expenses.

(** [loadFromLocalStorage] (lines 281-332): the page after it, [None] being
    no saved data. *)
Definition loadFromLocalStorage (pg : templates) (storage : option Saved.data)
    (els : elements) : elements :=
  match storage with
  | None => els
  | Some data =>
      mkElements
        (loadExpenses pg "monthly" true (monthlyTemplate pg)
           (Saved.monthlyExpenses data) (monthlyContainer els))
        (loadExpenses pg "weekly" true (weeklyTemplate pg)
           (Saved.weeklyExpenses data) (weeklyContainer els))
        (loadExpenses pg "daily" false (dailyTemplate pg)
           (Saved.dailyExpenses data) (dailyContainer els))
        (match Saved.payDay data with
         | Some v => if isFilled v then v else payDayInput els
         | None => payDayInput els
         end)
  end.

(** [addExpense] (lines 59-93), as far as the items go: a clone of the
    template, with nothing assigned, is appended to the container. *)
Definition addExpense (pg : templates) (kind : string) (hasDay : bool)
    (template : expense) (container : list expense) : list expense :=
  container ++ [createExpenseItem pg kind hasDay template []].

(** ** Further notions *)

(** Position of day [x] of the month counted from the start of today's
    month: a day that is not after today's day [cd] is counted in the next
    month, [dim] being the length of today's month. *)
Definition position (cd dim x : Z) : Z := if x <=? cd then dim + x else x.

(** The numbers 1, ..., [n] - 1. *)
Definition daysBetween (n : Z) : list Z :=
  map Z.of_nat (seq 1 (Z.to_nat (n - 1))).

(** A weekly item whose day select is blank or holds a weekday. *)
Definition weekdayOrBlank (e : expense) : Prop :=
  day e = Blank \/ exists f t, day e = Text f (Some t) /\ 0 <= t <= 6.

(** A weekly item whose day select holds a text that is no weekday. *)
Definition noWeekday (e : expense) : Prop :=
  exists f t, day e = Text f t /\ forall z, t = Some z -> ~ 0 <= z <= 6.

(** An item with some text in a control that is saved. *)
Definition someFilled (hasDay : bool) (e : expense) : bool :=
  isFilled (name e) || isFilled (amount e) || (hasDay && isFilled (day e)).

(** The saved form of an item. *)
Definition savedItem (hasDay : bool) (e : expense) : object :=
  [ ("name"%string, name e); ("amount"%string, amount e) ]
  ++ (if hasDay then [ ("day"%string, day e) ] else []).

(** A page with nothing on it and [p] in the pay-day select. *)
Definition freshPage (p : value) : elements := mkElements [] [] [] p.

(** The integers [lo], [lo] + 1, ..., [lo] + [len] - 1. *)
Definition zrange (lo : Z) (len : nat) : list Z :=
  map (fun i => lo + Z.of_nat i) (seq 0 len).

(** Among the days 1, ..., [n] - 1 after a day of weekday [w], the number of
    those of weekday [t]. *)
Definition matchingDays (w t n : Z) : Z :=
  Z.of_nat (List.length (filter (fun j => (w + j) mod 7 =? t) (daysBetween n))).

(** The count by steps of a week agrees with [matchingDays], checked on every
    weekday, target and number of days up to 31. *)
Definition matchingDaysChecked : bool :=
  forallb (fun w =>
    forallb (fun t =>
      forallb (fun n =>
        matchingDays w t n =? Z.max 0 (ceilDiv (n - daysToNext w t) 7))
        (zrange 1 31))
      (zrange 0 7))
    (zrange 0 7).

(** ** The projection in a time zone *)

(** A time zone, as ECMAScript's LocalTZA: the offset of local time from UTC,
    in milliseconds, at a UTC time value and at a local time. *)
Record zone : Type := mkZone {
  tzaOfUTC : Z -> Z;
  tzaOfLocal : Z -> Z
}.

(** [calculateExpensesUntilPayday] with the time values of its [Date]s in
    UTC, as the script holds them: the calendar fields are read through
    [LocalTime], [new Date(year, month, date)], [setDate] and [setMonth] go
    back through [UTC], and comparisons and the subtraction of line 178 act on
    the UTC time values.  The definitions outside this module are these on a
    clock of constant offset, with the local readings as time values (lemma
    [calculate_fixedZone]). *)
Module Zoned.

Definition LocalTime (z : zone) (t : Z) : Z := t + tzaOfUTC z t.
Definition UTC (z : zone) (t : Z) : Z := t - tzaOfLocal z t.

Definition make (z : zone) (year month date : Z) : Z :=
  UTC z (Date.make year month date).

Definition getFullYear (z : zone) (t : Z) : Z := Date.getFullYear (LocalTime z t).
Definition getMonth (z : zone) (t : Z) : Z := Date.getMonth (LocalTime z t).
Definition getDate (z : zone) (t : Z) : Z := Date.getDate (LocalTime z t).
Definition getDay (z : zone) (t : Z) : Z := Date.getDay (LocalTime z t).

Definition setDate (z : zone) (t date : Z) : Z :=
  UTC z (Date.setDate (LocalTime z t) date).

Definition setMonth (z : zone) (t month : Z) : Z :=
  UTC z (Date.setMonth (LocalTime z t) month).

Definition payDayDate (z : zone) (today payDay : Z) : Z :=
  let currentDay := getDate z today in
  let currentMonth := getMonth z today in
  let currentYear := getFullYear z today in
  if payDay <=? currentDay
  then make z currentYear (currentMonth + 1) payDay
  else make z currentYear currentMonth payDay.

Definition daysUntilPayday (z : zone) (today payDay : Z) : Z :=
  let currentDay := getDate z today in
  let currentMonth := getMonth z today in
  let payDayDate := payDayDate z today payDay in
  if (currentDay =? payDay) && (getMonth z payDayDate =? currentMonth)
  then 1
  else ceilDiv (payDayDate - today) MS_PER_DAY.

Definition dailyStep (z : zone) (today payDay : Z) (total : number)
    (e : expense) : number :=
  let amount := getExpenseAmount (amount e) in
  (total + amount * Num.of_Z (Z.max 0 (daysUntilPayday z today payDay)))%float.

Definition dailyExpenses (z : zone) (els : elements) (today payDay : Z) : number :=
  fold_left (dailyStep z today payDay) (dailyContainer els) PrimFloat.zero.

Fixpoint findNextOccurrence (fuel : nat) (z : zone) (today : Z)
    (targetDay : option Z) (nextOccurrence : Z) : option Z :=
  match fuel with
  | O => None
  | S fuel' =>
      if differs (getDay z nextOccurrence) targetDay
         || (nextOccurrence <=? today)
      then findNextOccurrence fuel' z today targetDay
             (setDate z nextOccurrence (getDate z nextOccurrence + 1))
      else Some nextOccurrence
  end.

Fixpoint countOccurrences (fuel : nat) (z : zone)
    (payDayDate nextOccurrence occurrences : Z) : option Z :=
  match fuel with
  | O => None
  | S fuel' =>
      if nextOccurrence <? payDayDate
      then countOccurrences fuel' z payDayDate
             (setDate z nextOccurrence
                (getDate z nextOccurrence + DAYS_IN_WEEK))
             (occurrences + 1)
      else Some occurrences
  end.

Definition weeklyOccurrences (fuel : nat) (z : zone) (today payDayDate : Z)
    (targetDay : option Z) : option Z :=
  match findNextOccurrence fuel z today targetDay today with
  | Some nextOccurrence => countOccurrences fuel z payDayDate nextOccurrence 0
  | None => None
  end.

Definition weeklyStep (fuel : nat) (z : zone) (today payDayDate : Z)
    (total : number) (e : expense) : option number :=
  let amount := getExpenseAmount (amount e) in
  match day e with
  | Blank => Some total
  | Text _ targetDay =>
      match weeklyOccurrences fuel z today payDayDate targetDay with
      | Some occurrences => Some (total + amount * Num.of_Z occurrences)%float
      | None => None
      end
  end.

Definition weeklyExpenses (fuel : nat) (z : zone) (els : elements)
    (today payDay : Z) : option number :=
  reduceM (weeklyStep fuel z today (payDayDate z today payDay))
    (weeklyContainer els) PrimFloat.zero.

Definition expenseDate (z : zone) (today dayOfMonth : Z) : Z :=
  let currentDay := getDate z today in
  let currentMonth := getMonth z today in
  let currentYear := getFullYear z today in
  let expenseDate := make z currentYear currentMonth dayOfMonth in
  if dayOfMonth <=? currentDay
  then setMonth z expenseDate (getMonth z expenseDate + 1)
  else expenseDate.

Definition monthlyStep (z : zone) (today payDay : Z) (total : number)
    (e : expense) : number :=
  let amount := getExpenseAmount (amount e) in
  match dayOfMonthOf (day e) with
  | None => total
  | Some dayOfMonth =>
      if expenseDate z today dayOfMonth <? payDayDate z today payDay
      then (total + amount)%float
      else total
  end.

Definition monthlyExpenses (z : zone) (els : elements) (today payDay : Z) : number :=
  fold_left (monthlyStep z today payDay) (monthlyContainer els) PrimFloat.zero.

Definition calculateExpensesUntilPayday (fuel : nat) (z : zone) (els : elements)
    (today payDay : Z) : option number :=
  let daily := dailyExpenses z els today payDay in
  match weeklyExpenses fuel z els today payDay with
  | Some weekly =>
      Some (daily + weekly + monthlyExpenses z els today payDay)%float
  | None => None
  end.

End Zoned.


(** Europe/London in 2024: one hour ahead of UTC from 31 March, 01:00 UTC, to
    27 October, 01:00 UTC.  A local time that occurs twice, or not at all, is
    read with the offset in force before the change. *)
Definition london2024 : zone :=
  let start := Date.at_clock 2024 3 31 1 0 in
  let stop := Date.at_clock 2024 10 27 1 0 in
  mkZone
    (fun t => if (start <=? t) && (t <? stop) then 3600000 else 0)
    (fun t => if (start + 3600000 <=? t) && (t <? stop + 3600000)
              then 3600000 else 0).


(** What one weekly item adds to the total, by the weekly rule: nothing
    without a day; with day [target], its amount times the number of the
    dates, a week apart from the first day after today of weekday [target],
    that are before the payday date. *)
Definition weeklyContribution (today payDay : Z) (total : number) (e : expense)
    : number :=
  match day e with
  | Text _ (Some target) =>
      (total
       + getExpenseAmount (amount e)
         * Num.of_Z
             (occurrencesBefore (payDayDate today payDay)
                (today
                 + daysToNext (Date.getDay today) target * MS_PER_DAY)))%float
  | _ => total
  end.

(** * Properties *)

(** ** The calendar *)

(** Known dates: the epoch is Thursday 1 January 1970; 29 February 2000 was
    a Tuesday; [new Date(2024, 1, 31)] is 2 March 2024; the day before the
    epoch is Wednesday 31 December 1969. *)
Example epoch_is_thursday :
  Date.make 1970 0 1 = 0 /\ civil 0 = (1970, 0, 1) /\ Date.getDay 0 = 4.
Proof. split; [reflexivity | split; reflexivity]. Qed.

Example leap_day_2000 :
  civil (Date.make 2000 1 29) = (2000, 1, 29)
  /\ Date.getDay (Date.make 2000 1 29) = 2.
Proof. split; reflexivity. Qed.

Example february_31st :
  civil (Date.make 2024 1 31) = (2024, 2, 2)
  /\ Date.make 2024 1 31 = 1709337600000.
Proof. split; reflexivity. Qed.

Example before_the_epoch :
  civil (-1) = (1969, 11, 31) /\ Date.getDay (-1) = 3.
Proof. split; reflexivity. Qed.

Example two_digit_year : civil (Date.make 50 0 1) = (1950, 0, 1).
Proof. reflexivity. Qed.

Lemma MS_PER_DAY_pos : 0 < MS_PER_DAY.
Proof. reflexivity. Qed.

Lemma Day_MakeDate (d tod : Z) :
  0 <= tod < MS_PER_DAY -> Date.Day (Date.MakeDate d tod) = d.
Proof.
  intros H. unfold Date.Day, Date.MakeDate.
  rewrite Z.add_comm, Z.div_add by (pose proof MS_PER_DAY_pos; lia).
  rewrite Z.div_small by assumption. reflexivity.
Qed.

Lemma TimeWithinDay_MakeDate (d tod : Z) :
  0 <= tod < MS_PER_DAY -> Date.TimeWithinDay (Date.MakeDate d tod) = tod.
Proof.
  intros H. unfold Date.TimeWithinDay, Date.MakeDate.
  rewrite Z.add_comm, Z.mod_add by (pose proof MS_PER_DAY_pos; lia).
  apply Z.mod_small; assumption.
Qed.

Lemma TimeWithinDay_range (t : Z) : 0 <= Date.TimeWithinDay t < MS_PER_DAY.
Proof. apply Z.mod_pos_bound, MS_PER_DAY_pos. Qed.

Lemma MakeDate_Day (t : Z) :
  Date.MakeDate (Date.Day t) (Date.TimeWithinDay t) = t.
Proof.
  unfold Date.MakeDate, Date.Day, Date.TimeWithinDay.
  pose proof (Z.div_mod t MS_PER_DAY). pose proof MS_PER_DAY_pos. lia.
Qed.

Lemma DaysInYear_cases (y : Z) : Date.DaysInYear y = 365 \/ Date.DaysInYear y = 366.
Proof.
  unfold Date.DaysInYear.
  destruct (y mod 4 =? 0), (y mod 100 =? 0), (y mod 400 =? 0); cbn; auto.
Qed.

Lemma DayFromYear_succ (y : Z) :
  Date.DayFromYear (y + 1) = Date.DayFromYear y + Date.DaysInYear y.
Proof.
  unfold Date.DayFromYear, Date.DaysInYear.
  destruct (Z.eqb_spec (y mod 4) 0), (Z.eqb_spec (y mod 100) 0),
    (Z.eqb_spec (y mod 400) 0); cbn [negb];
    Z.div_mod_to_equations; lia.
Qed.

Lemma DayFromYear_mono (y y' : Z) :
  y <= y' -> Date.DayFromYear y <= Date.DayFromYear y'.
Proof.
  intros H. unfold Date.DayFromYear. Z.div_mod_to_equations. lia.
Qed.

(** [YearFromDay d] is the year that contains day [d]. *)
Lemma YearFromDay_spec (d : Z) :
  Date.DayFromYear (Date.YearFromDay d) <= d
  < Date.DayFromYear (Date.YearFromDay d + 1).
Proof.
  unfold Date.YearFromDay.
  set (y := 1970 + 400 * d / 146097).
  assert (Hy : Date.DayFromYear (y - 1) <= d < Date.DayFromYear (y + 2)).
  { subst y. unfold Date.DayFromYear. Z.div_mod_to_equations. lia. }
  destruct (Z.leb_spec (Date.DayFromYear (y + 1)) d).
  - replace (y + 1 + 1) with (y + 2) by lia. lia.
  - destruct (Z.ltb_spec d (Date.DayFromYear y)).
    + replace (y - 1 + 1) with y by lia. lia.
    + lia.
Qed.

Lemma YearFromDay_unique (d y : Z) :
  Date.DayFromYear y <= d < Date.DayFromYear (y + 1) -> Date.YearFromDay d = y.
Proof.
  intros H. pose proof (YearFromDay_spec d) as S.
  destruct (Z.lt_trichotomy (Date.YearFromDay d) y) as [L | [E | G]].
  - pose proof (DayFromYear_mono (Date.YearFromDay d + 1) y ltac:(lia)). lia.
  - exact E.
  - pose proof (DayFromYear_mono (y + 1) (Date.YearFromDay d) ltac:(lia)). lia.
Qed.

Lemma DayWithinYear_range (t : Z) :
  0 <= Date.DayWithinYear t < Date.DaysInYear (Date.YearFromTime t).
Proof.
  unfold Date.DayWithinYear, Date.YearFromTime.
  pose proof (YearFromDay_spec (Date.Day t)) as S.
  rewrite DayFromYear_succ in S. lia.
Qed.

Lemma InLeapYear_cases (t : Z) :
  (Date.InLeapYear t = 0 /\ Date.DaysInYear (Date.YearFromTime t) = 365)
  \/ (Date.InLeapYear t = 1 /\ Date.DaysInYear (Date.YearFromTime t) = 366).
Proof.
  unfold Date.InLeapYear.
  destruct (DaysInYear_cases (Date.YearFromTime t)) as [E | E]; rewrite E; cbn; auto.
Qed.

Ltac split_ltb :=
  repeat match goal with
         | |- context [ ?a <? ?b ] => destruct (Z.ltb_spec a b)
         | H : context [ ?a <? ?b ] |- _ => destruct (Z.ltb_spec a b)
         end.

Lemma MonthFromTime_range (t : Z) : 0 <= Date.MonthFromTime t <= 11.
Proof. unfold Date.MonthFromTime. cbv zeta. split_ltb; lia. Qed.

(** The month and the day of the month locate the day within its year. *)
Lemma MonthStart_DateFromTime (t : Z) :
  Date.MonthStart (Date.InLeapYear t) (Date.MonthFromTime t)
  + Date.DateFromTime t - 1 = Date.DayWithinYear t.
Proof.
  unfold Date.DateFromTime, Date.MonthFromTime. cbv zeta.
  split_ltb; cbn [Date.MonthStart]; lia.
Qed.

Lemma DateFromTime_range (t : Z) :
  1 <= Date.DateFromTime t
  <= Date.DaysInMonth (Date.YearFromTime t) (Date.MonthFromTime t).
Proof.
  pose proof (DayWithinYear_range t) as R.
  unfold Date.DaysInMonth.
  destruct (InLeapYear_cases t) as [[L Y] | [L Y]]; rewrite Y in *;
    unfold Date.DateFromTime, Date.MonthFromTime; cbv zeta; rewrite L;
    split_ltb; cbn; lia.
Qed.

Ltac month_cases m :=
  let H := fresh in
  assert (H : m = 0 \/ m = 1 \/ m = 2 \/ m = 3 \/ m = 4 \/ m = 5 \/ m = 6
              \/ m = 7 \/ m = 8 \/ m = 9 \/ m = 10 \/ m = 11) by lia;
  repeat (destruct H as [H | H]; [subst m | ]); [.. | subst m].

(** A time value, rebuilt from its own year, month and day of the month moved
    by [n] days, lies [n] days later: days past the end of the month carry. *)
Lemma MakeDay_of_time (t n : Z) :
  Date.MakeDay (Date.YearFromTime t) (Date.MonthFromTime t)
    (Date.DateFromTime t + n) = Date.Day t + n.
Proof.
  pose proof (MonthFromTime_range t) as R.
  pose proof (MonthStart_DateFromTime t) as S.
  unfold Date.MakeDay. cbv zeta.
  rewrite Z.div_small, Z.mod_small, Z.add_0_r by lia.
  fold (Date.InLeapYear t).
  unfold Date.DayWithinYear in S. lia.
Qed.

Lemma setDate_shift (t n : Z) :
  Date.setDate t (Date.getDate t + n) = t + n * MS_PER_DAY.
Proof.
  unfold Date.setDate, Date.getDate. rewrite MakeDay_of_time.
  pose proof (MakeDate_Day t) as E. unfold Date.MakeDate in *. lia.
Qed.

Lemma MakeDay_shift (y m d k : Z) :
  Date.MakeDay y m (d + k) = Date.MakeDay y m d + k.
Proof. unfold Date.MakeDay. lia. Qed.

Lemma MakeDay_in_year (y m d : Z) :
  0 <= m <= 11 ->
  Date.MakeDay y m d
  = Date.DayFromYear y
    + Date.MonthStart (if Date.DaysInYear y =? 366 then 1 else 0) m + d - 1.
Proof.
  intros R. unfold Date.MakeDay. cbv zeta.
  rewrite Z.div_small, Z.mod_small, Z.add_0_r by lia. reflexivity.
Qed.

(** Month 12 is January of the next year. *)
Lemma MakeDay_next_month (y m d : Z) :
  0 <= m <= 11 ->
  Date.MakeDay y (m + 1) d
  = Date.MakeDay (fst (Date.next_month y m)) (snd (Date.next_month y m)) d.
Proof.
  intros R. unfold Date.next_month.
  destruct (Z.eqb_spec m 11) as [-> | N]; cbn [fst snd].
  - unfold Date.MakeDay. cbv zeta.
    change ((11 + 1) / 12) with 1. change ((11 + 1) mod 12) with 0.
    change (0 / 12) with 0. change (0 mod 12) with 0.
    rewrite ?Z.add_0_r. cbn [Date.MonthStart]. lia.
  - reflexivity.
Qed.

Ltac eval_next_month :=
  repeat match goal with
         | |- context [ Date.next_month ?y ?c ] =>
             let v := eval cbn in (Date.next_month y c) in
             change (Date.next_month y c) with v
         end.

Lemma eqb_365_366 : (365 =? 366) = false.
Proof. reflexivity. Qed.

Lemma next_month_range (y m : Z) :
  0 <= m <= 11 -> 0 <= snd (Date.next_month y m) <= 11.
Proof.
  intros R. unfold Date.next_month.
  destruct (Z.eqb_spec m 11); cbn [snd]; lia.
Qed.

(** Day [DaysInMonth + k] of a month is day [k] of the month after. *)
Lemma MakeDay_overflow (y m k : Z) :
  0 <= m <= 11 ->
  Date.MakeDay y m (Date.DaysInMonth y m + k) = Date.MakeDay y (m + 1) k.
Proof.
  intros R. rewrite MakeDay_next_month by assumption.
  pose proof (next_month_range y m R) as R'.
  rewrite !MakeDay_in_year by assumption.
  pose proof (DayFromYear_succ y) as S.
  month_cases m; eval_next_month; cbn [fst snd];
    destruct (DaysInYear_cases y) as [E | E]; rewrite ?E in *;
    cbn [Date.MonthStart Date.DaysInMonth]; rewrite ?E;
    rewrite ?eqb_365_366, ?Z.eqb_refl; lia.
Qed.

(** A day that exists in its month is read back as it was written. *)
Lemma civil_of_MakeDay (y m d t : Z) :
  0 <= m <= 11 -> 1 <= d <= Date.DaysInMonth y m ->
  Date.Day t = Date.MakeDay y m d ->
  Date.YearFromTime t = y /\ Date.MonthFromTime t = m /\ Date.DateFromTime t = d.
Proof.
  intros Rm Rd E. rewrite MakeDay_in_year in E by assumption.
  assert (Ey : Date.YearFromTime t = y).
  { unfold Date.YearFromTime. apply YearFromDay_unique.
    rewrite DayFromYear_succ, E.
    destruct (DaysInYear_cases y) as [Y | Y];
      month_cases m; cbn [Date.MonthStart Date.DaysInMonth] in *;
      rewrite ?Y in *; rewrite ?eqb_365_366, ?Z.eqb_refl in *; lia. }
  split; [exact Ey | ].
  unfold Date.DateFromTime, Date.MonthFromTime, Date.InLeapYear,
    Date.DayWithinYear. cbv zeta. rewrite Ey, E.
  destruct (DaysInYear_cases y) as [Y | Y];
    month_cases m; cbn [Date.MonthStart Date.DaysInMonth] in *;
    rewrite ?Y in *; rewrite ?eqb_365_366, ?Z.eqb_refl in *; split_ltb;
    try lia; split; lia.
Qed.

Lemma WeekDay_range (t : Z) : 0 <= Date.WeekDay t <= 6.
Proof. unfold Date.WeekDay. pose proof (Z.mod_pos_bound (Date.Day t + 4) 7). lia. Qed.

Lemma Day_shift (t n : Z) : Date.Day (t + n * MS_PER_DAY) = Date.Day t + n.
Proof. unfold Date.Day. apply Z.div_add. discriminate. Qed.

Lemma TimeWithinDay_shift (t n : Z) :
  Date.TimeWithinDay (t + n * MS_PER_DAY) = Date.TimeWithinDay t.
Proof. unfold Date.TimeWithinDay. apply Z.mod_add. discriminate. Qed.

Lemma WeekDay_shift (t n : Z) :
  Date.WeekDay (t + n * MS_PER_DAY) = (Date.WeekDay t + n) mod 7.
Proof.
  unfold Date.WeekDay. rewrite Day_shift.
  rewrite Zplus_mod_idemp_l. f_equal. lia.
Qed.

Lemma DaysInMonth_range (y m : Z) : 28 <= Date.DaysInMonth y m <= 31.
Proof.
  unfold Date.DaysInMonth.
  destruct (Date.DaysInYear y =? 366);
    repeat match goal with |- context [ match ?x with _ => _ end ] => destruct x end;
    lia.
Qed.

(** A clock that reads a time at or after the epoch reads a year from 1970
    on, which [new Date(year, month, date)] takes as it is. *)
Lemma YearFromTime_epoch (t : Z) : 0 <= t -> 1970 <= Date.YearFromTime t.
Proof.
  intros H. unfold Date.YearFromTime.
  assert (D : 0 <= Date.Day t) by (apply Z.div_pos; [exact H | reflexivity]).
  pose proof (YearFromDay_spec (Date.Day t)) as [_ U].
  destruct (Z.le_gt_cases 1970 (Date.YearFromDay (Date.Day t))) as [L | G];
    [exact L | ].
  pose proof (DayFromYear_mono (Date.YearFromDay (Date.Day t) + 1) 1970
                ltac:(lia)) as M.
  change (Date.DayFromYear 1970) with 0 in M. lia.
Qed.

Lemma make_plain (y m d : Z) :
  1970 <= y -> Date.make y m d = Date.MakeDate (Date.MakeDay y m d) 0.
Proof.
  intros H. unfold Date.make.
  destruct (Z.leb_spec 0 y), (Z.leb_spec y 99); cbn [andb]; solve [reflexivity | lia].
Qed.

Lemma Day_make (y m d : Z) :
  1970 <= y -> Date.Day (Date.make y m d) = Date.MakeDay y m d.
Proof.
  intros H. rewrite make_plain by assumption. apply Day_MakeDate.
  split; [lia | reflexivity].
Qed.

Lemma civil_of_MakeDay_lands (y m d t : Z) :
  0 <= m <= 11 -> 1 <= d <= 31 ->
  Date.Day t = Date.MakeDay y m d -> civil t = lands y m d.
Proof.
  intros Rm Rd E. unfold civil, lands, Date.getFullYear, Date.getMonth, Date.getDate.
  destruct (Z.leb_spec d (Date.DaysInMonth y m)) as [L | G].
  - destruct (civil_of_MakeDay y m d t) as (-> & -> & ->); auto; lia.
  - pose proof (DaysInMonth_range y m) as B.
    pose proof (next_month_range y m Rm) as R'.
    pose proof (DaysInMonth_range (fst (Date.next_month y m))
                  (snd (Date.next_month y m))) as B'.
    replace d with (Date.DaysInMonth y m + (d - Date.DaysInMonth y m)) in E by lia.
    rewrite MakeDay_overflow, MakeDay_next_month in E by assumption.
    destruct (civil_of_MakeDay (fst (Date.next_month y m))
                (snd (Date.next_month y m)) (d - Date.DaysInMonth y m) t R')
      as (-> & -> & ->); [lia | exact E | reflexivity].
Qed.

Lemma civil_make (y m d : Z) :
  1970 <= y -> 0 <= m <= 11 -> 1 <= d <= 31 ->
  civil (Date.make y m d) = lands y m d.
Proof.
  intros Hy Rm Rd. apply civil_of_MakeDay_lands; auto using Day_make.
Qed.

Lemma civil_make_next (y m d : Z) :
  1970 <= y -> 0 <= m <= 11 -> 1 <= d <= 31 ->
  civil (Date.make y (m + 1) d)
  = lands (fst (Date.next_month y m)) (snd (Date.next_month y m)) d.
Proof.
  intros Hy Rm Rd. apply civil_of_MakeDay_lands; auto using next_month_range.
  rewrite Day_make by assumption. apply MakeDay_next_month; assumption.
Qed.

(** ** The payday date *)

Lemma payDayDate_midnight (today payDay : Z) :
  exists P, payDayDate today payDay = P * MS_PER_DAY.
Proof.
  unfold payDayDate, Date.make, Date.MakeDate.
  destruct (payDay <=? Date.getDate today); eexists; rewrite Z.add_0_r; reflexivity.
Qed.




(** ** The weekly loops *)


Lemma daysToNext_range (w target : Z) : 1 <= daysToNext w target <= 7.
Proof.
  unfold daysToNext. pose proof (Z.mod_pos_bound (target - w - 1) 7). lia.
Qed.

Lemma daysToNext_hit (w target : Z) :
  0 <= target <= 6 -> (w + daysToNext w target) mod 7 = target.
Proof.
  intros R. unfold daysToNext. Z.div_mod_to_equations. lia.
Qed.

Lemma daysToNext_first (w target j : Z) :
  0 <= target <= 6 -> 1 <= j < daysToNext w target -> (w + j) mod 7 <> target.
Proof.
  intros R. unfold daysToNext. Z.div_mod_to_equations. lia.
Qed.

Section FindNext.

Variables (today target : Z).
Hypothesis target_range : 0 <= target <= 6.

Local Abbreviation k := (daysToNext (Date.getDay today) target).

Lemma first_hit : Date.getDay (today + k * MS_PER_DAY) = target.
Proof.
  unfold Date.getDay. rewrite WeekDay_shift.
  apply daysToNext_hit, target_range.
Qed.

Lemma first_miss (j : Z) :
  1 <= j < k -> Date.getDay (today + j * MS_PER_DAY) <> target.
Proof.
  intros R. unfold Date.getDay. rewrite WeekDay_shift.
  apply daysToNext_first; [exact target_range | exact R].
Qed.

(** From [today] + [j] days the search stops at [today] + [k] days. *)
Lemma findNextOccurrence_from (fuel : nat) :
  forall j, 0 <= j <= k -> (Z.to_nat (k - j) < fuel)%nat ->
  findNextOccurrence fuel today (Some target) (today + j * MS_PER_DAY)
  = Some (today + k * MS_PER_DAY).
Proof.
  pose proof MS_PER_DAY_pos as Hms.
  induction fuel as [ | fuel IH]; intros j Rj F; [lia | ].
  cbn [findNextOccurrence differs].
  destruct (Z.eq_dec j k) as [-> | N].
  - rewrite first_hit, Z.eqb_refl. cbn [negb orb].
    pose proof (daysToNext_range (Date.getDay today) target). fold k in H.
    destruct (Z.leb_spec (today + k * MS_PER_DAY) today); [nia | reflexivity].
  - assert (C : negb (Date.getDay (today + j * MS_PER_DAY) =? target)
                || (today + j * MS_PER_DAY <=? today) = true).
    { destruct (Z.eq_dec j 0) as [-> | N0].
      - rewrite Z.add_0_r, Z.leb_refl. apply orb_true_r.
      - pose proof (first_miss j ltac:(lia)) as M.
        apply Z.eqb_neq in M. rewrite M. reflexivity. }
    rewrite C, setDate_shift.
    replace (today + j * MS_PER_DAY + 1 * MS_PER_DAY)
      with (today + (j + 1) * MS_PER_DAY) by lia.
    apply IH; lia.
Qed.

Lemma findNextOccurrence_spec (fuel : nat) :
  (8 <= fuel)%nat ->
  findNextOccurrence fuel today (Some target) today
  = Some (today + k * MS_PER_DAY).
Proof.
  intros F. pose proof (daysToNext_range (Date.getDay today) target) as R.
  fold k in R.
  replace today with (today + 0 * MS_PER_DAY) at 2 by lia.
  apply findNextOccurrence_from; lia.
Qed.

End FindNext.

Lemma ceilDiv_week_step (a : Z) :
  0 < a ->
  Z.max 0 (ceilDiv a (DAYS_IN_WEEK * MS_PER_DAY))
  = 1 + Z.max 0 (ceilDiv (a - DAYS_IN_WEEK * MS_PER_DAY) (DAYS_IN_WEEK * MS_PER_DAY)).
Proof.
  intros H. unfold ceilDiv.
  change (DAYS_IN_WEEK * MS_PER_DAY) with 604800000.
  Z.div_mod_to_equations. lia.
Qed.

Lemma occurrencesBefore_step (pd next : Z) :
  next < pd ->
  occurrencesBefore pd next
  = 1 + occurrencesBefore pd (next + DAYS_IN_WEEK * MS_PER_DAY).
Proof.
  intros L. unfold occurrencesBefore.
  rewrite (ceilDiv_week_step (pd - next)) by lia.
  do 3 f_equal. lia.
Qed.

Lemma occurrencesBefore_done (pd next : Z) :
  pd <= next -> occurrencesBefore pd next = 0.
Proof.
  intros L. unfold occurrencesBefore, ceilDiv.
  change (DAYS_IN_WEEK * MS_PER_DAY) with 604800000.
  Z.div_mod_to_equations. lia.
Qed.

Lemma occurrencesBefore_nonneg (pd next : Z) : 0 <= occurrencesBefore pd next.
Proof. unfold occurrencesBefore. lia. Qed.

(** The count is the number of the dates, a week apart from [first] on, that
    are before [pd]. *)
Lemma occurrencesBefore_counts (pd first i : Z) :
  0 <= i ->
  (first + i * (DAYS_IN_WEEK * MS_PER_DAY) < pd <-> i < occurrencesBefore pd first).
Proof.
  intros Hi. unfold occurrencesBefore, ceilDiv.
  change (DAYS_IN_WEEK * MS_PER_DAY) with 604800000.
  Z.div_mod_to_equations. lia.
Qed.

Lemma occurrencesBefore_mono (pd a b : Z) :
  a <= b -> occurrencesBefore pd b <= occurrencesBefore pd a.
Proof.
  intros L. unfold occurrencesBefore, ceilDiv.
  change (DAYS_IN_WEEK * MS_PER_DAY) with 604800000.
  Z.div_mod_to_equations. lia.
Qed.

Lemma countOccurrences_spec (pd : Z) (fuel : nat) :
  forall next occ,
    (Z.to_nat (occurrencesBefore pd next) < fuel)%nat ->
    countOccurrences fuel pd next occ = Some (occ + occurrencesBefore pd next).
Proof.
  induction fuel as [ | fuel IH]; intros next occ F; [lia | ].
  cbn [countOccurrences].
  destruct (Z.ltb_spec next pd) as [L | G].
  - rewrite setDate_shift.
    pose proof (occurrencesBefore_nonneg pd (next + DAYS_IN_WEEK * MS_PER_DAY)).
    rewrite (occurrencesBefore_step pd next L) in F |- *.
    rewrite IH by lia. f_equal. lia.
  - rewrite occurrencesBefore_done by lia. f_equal. lia.
Qed.

Lemma weeklyOccurrences_spec (fuel : nat) (today pd target : Z) :
  0 <= target <= 6 -> (weeklyFuel today pd <= fuel)%nat ->
  weeklyOccurrences fuel today pd (Some target)
  = Some (occurrencesBefore pd
            (today + daysToNext (Date.getDay today) target * MS_PER_DAY)).
Proof.
  intros R F. unfold weeklyOccurrences, weeklyFuel in *.
  pose proof (occurrencesBefore_nonneg pd today) as N.
  pose proof (daysToNext_range (Date.getDay today) target) as K.
  pose proof (occurrencesBefore_mono pd today
                (today + daysToNext (Date.getDay today) target * MS_PER_DAY)
                ltac:(pose proof MS_PER_DAY_pos; nia)) as M.
  rewrite findNextOccurrence_spec by lia.
  rewrite countOccurrences_spec by lia. reflexivity.
Qed.

Lemma Day_of_civil (t : Z) :
  Date.Day t
  = Date.MakeDay (Date.getFullYear t) (Date.getMonth t) (Date.getDate t).
Proof.
  pose proof (MakeDay_of_time t 0) as E. rewrite !Z.add_0_r in E.
  symmetry. exact E.
Qed.

(** The payday is midnight of a day from 1 to 31 days after today's. *)
Lemma payDayDate_ahead (today payDay : Z) :
  0 <= today -> 1 <= payDay <= 31 ->
  exists n, 1 <= n <= 31
            /\ payDayDate today payDay = (Date.Day today + n) * MS_PER_DAY
            /\ n = (if payDay <=? Date.getDate today
                    then Date.DaysInMonth (Date.getFullYear today)
                           (Date.getMonth today) + payDay - Date.getDate today
                    else payDay - Date.getDate today).
Proof.
  intros H0 R.
  pose proof (YearFromTime_epoch today H0) as Hy.
  pose proof (MonthFromTime_range today) as Rm.
  pose proof (DateFromTime_range today) as Rd.
  pose proof (DaysInMonth_range (Date.getFullYear today) (Date.getMonth today)) as B.
  pose proof (Day_of_civil today) as E.
  unfold payDayDate. cbv zeta. fold (Date.getFullYear today) in Hy.
  fold (Date.getMonth today) in Rm. fold (Date.getDate today) in Rd.
  fold (Date.getFullYear today) (Date.getMonth today) in Rd.
  destruct (Z.leb_spec payDay (Date.getDate today)) as [L | G].
  - exists (Date.DaysInMonth (Date.getFullYear today) (Date.getMonth today)
            + payDay - Date.getDate today).
    split; [lia | split; [ | reflexivity]].
    rewrite make_plain by assumption. unfold Date.MakeDate.
    rewrite Z.add_0_r. f_equal. rewrite E.
    rewrite <- MakeDay_overflow by assumption.
    rewrite <- MakeDay_shift. f_equal. lia.
  - exists (payDay - Date.getDate today).
    split; [lia | split; [ | reflexivity]].
    rewrite make_plain by assumption. unfold Date.MakeDate.
    rewrite Z.add_0_r. f_equal. rewrite E.
    rewrite <- MakeDay_shift. f_equal. lia.
Qed.

Lemma payDayDate_distance (today payDay : Z) :
  0 <= today -> 1 <= payDay <= 31 ->
  today < payDayDate today payDay <= today + 31 * MS_PER_DAY.
Proof.
  intros H0 R. destruct (payDayDate_ahead today payDay H0 R) as (n & Rn & -> & _).
  pose proof (MakeDate_Day today) as E. unfold Date.MakeDate in E.
  pose proof (TimeWithinDay_range today). pose proof MS_PER_DAY_pos. nia.
Qed.

(** The callback of the weekly [reduce]: an item without a day leaves the
    total as it is; with day [target] (0..6) and enough tests for the loops,
    the first occurrence is [k] days after today, at today's clock time,
    [k >= 1] being the least number of days after which the weekday is
    [target], and the item adds its amount times the number [n] of the dates
    [first], [first] + 7 days, ... that are before [pd]. *)
Lemma weeklyStep_rule (fuel : nat) (today pd : Z) (total : number) (e : expense) :
  (day e = Blank -> weeklyStep fuel today pd total e = Some total)
  /\ (forall f target,
        day e = Text f (Some target) -> 0 <= target <= 6 ->
        (weeklyFuel today pd <= fuel)%nat ->
        let k := daysToNext (Date.getDay today) target in
        let first := today + k * MS_PER_DAY in
        let n := occurrencesBefore pd first in
        (1 <= k /\ Date.getDay first = target
         /\ forall j, 1 <= j < k ->
                      Date.getDay (today + j * MS_PER_DAY) <> target)
        /\ (0 <= n
            /\ forall i, 0 <= i ->
                 (first + i * (DAYS_IN_WEEK * MS_PER_DAY) < pd <-> i < n))
        /\ weeklyStep fuel today pd total e
           = Some (total + getExpenseAmount (amount e) * Num.of_Z n)%float
        /\ (first < pd <= first + DAYS_IN_WEEK * MS_PER_DAY -> n = 1)).
Proof.
  split.
  - intros B. unfold weeklyStep. rewrite B. reflexivity.
  - intros f target D R F k first n.
    pose proof (daysToNext_range (Date.getDay today) target) as K.
    repeat split.
    + apply K.
    + apply first_hit, R.
    + intros j Rj. apply first_miss; assumption.
    + apply occurrencesBefore_nonneg.
    + apply occurrencesBefore_counts; assumption.
    + apply occurrencesBefore_counts; assumption.
    + unfold weeklyStep. rewrite D.
      rewrite weeklyOccurrences_spec by assumption. reflexivity.
    + intros [L U]. subst n.
      rewrite (occurrencesBefore_step pd first L).
      rewrite occurrencesBefore_done by lia. reflexivity.
Qed.

(** C10: the search for the next occurrence ends within 8 tests of its
    condition, that is after at most 7 steps, on a date from 1 to 7 days after
    today; the count of occurrences ends on every payday date, after one test
    more than there are occurrences; and, the payday being at most 31 days
    ahead of a clock at or after the epoch, 8 tests are enough for both loops
    and there are at most 5 occurrences. *)
Theorem weekly_loops_terminate (today target : Z) :
  0 <= target <= 6 ->
  (exists next,
      findNextOccurrence 8 today (Some target) today = Some next
      /\ today < next <= today + 7 * MS_PER_DAY)
  /\ (forall pd next,
        exists n,
          countOccurrences (S (Z.to_nat (occurrencesBefore pd next))) pd next 0
          = Some n)
  /\ (forall payDay,
        0 <= today -> 1 <= payDay <= 31 ->
        exists n,
          weeklyOccurrences 8 today (payDayDate today payDay) (Some target)
          = Some n /\ 0 <= n <= 5).
Proof.
  intros R.
  pose proof (daysToNext_range (Date.getDay today) target) as K.
  pose proof MS_PER_DAY_pos as Hms.
  split; [ | split].
  - eexists. split.
    + apply findNextOccurrence_spec; [exact R | lia].
    + nia.
  - intros pd next. eexists. apply countOccurrences_spec. lia.
  - intros payDay H0 Rp.
    pose proof (payDayDate_distance today payDay H0 Rp) as D.
    set (pd := payDayDate today payDay) in *.
    set (first := today + daysToNext (Date.getDay today) target * MS_PER_DAY).
    assert (B : 0 <= occurrencesBefore pd first <= 5).
    { split; [apply occurrencesBefore_nonneg | ].
      destruct (Z.lt_ge_cases 5 (occurrencesBefore pd first)) as [G | L];
        [ | lia].
      apply (occurrencesBefore_counts pd first 5 ltac:(lia)) in G.
      change (DAYS_IN_WEEK * MS_PER_DAY) with (7 * MS_PER_DAY) in G.
      subst first. nia. }
    exists (occurrencesBefore pd first). split; [ | exact B].
    unfold weeklyOccurrences.
    rewrite findNextOccurrence_spec by (auto; lia).
    fold first. rewrite countOccurrences_spec by lia. reflexivity.
Qed.

Lemma weekly_loops_terminate_witness :
  0 <= 3 <= 6
  /\ exists n,
       weeklyOccurrences 8 (Date.at_clock 2024 1 10 9 30)
         (payDayDate (Date.at_clock 2024 1 10 9 30) 25) (Some 3) = Some n
       /\ 0 <= n <= 5.
Proof.
  assert (R : 0 <= 3 <= 6) by lia.
  split; [exact R | ].
  exact (proj2 (proj2 (weekly_loops_terminate (Date.at_clock 2024 1 10 9 30) 3 R))
           25 ltac:(vm_compute; discriminate) ltac:(lia)).
Defined.

(** ** What the clock time does not change *)

Section SameDay.

Variables (t1 t2 : Z).
Hypothesis same_day : Date.Day t1 = Date.Day t2.

Lemma getFullYear_same_day : Date.getFullYear t1 = Date.getFullYear t2.
Proof. unfold Date.getFullYear, Date.YearFromTime. rewrite same_day. reflexivity. Qed.

Lemma getMonth_same_day : Date.getMonth t1 = Date.getMonth t2.
Proof.
  unfold Date.getMonth, Date.MonthFromTime, Date.DayWithinYear, Date.InLeapYear,
    Date.YearFromTime.
  rewrite same_day. reflexivity.
Qed.

Lemma getDate_same_day : Date.getDate t1 = Date.getDate t2.
Proof.
  unfold Date.getDate, Date.DateFromTime, Date.MonthFromTime, Date.DayWithinYear,
    Date.InLeapYear, Date.YearFromTime.
  rewrite same_day. reflexivity.
Qed.

Lemma getDay_same_day : Date.getDay t1 = Date.getDay t2.
Proof. unfold Date.getDay, Date.WeekDay. rewrite same_day. reflexivity. Qed.

Lemma civil_same_day : civil t1 = civil t2.
Proof.
  unfold civil.
  rewrite getFullYear_same_day, getMonth_same_day, getDate_same_day. reflexivity.
Qed.

Lemma payDayDate_same_day (payDay : Z) : payDayDate t1 payDay = payDayDate t2 payDay.
Proof.
  unfold payDayDate.
  rewrite getFullYear_same_day, getMonth_same_day, getDate_same_day. reflexivity.
Qed.

Lemma expenseDate_same_day (d : Z) : expenseDate t1 d = expenseDate t2 d.
Proof.
  unfold expenseDate.
  rewrite getFullYear_same_day, getMonth_same_day, getDate_same_day. reflexivity.
Qed.

Lemma ceilDiv_midnight (P t : Z) :
  ceilDiv (P * MS_PER_DAY - t) MS_PER_DAY = P - Date.Day t.
Proof.
  unfold ceilDiv, Date.Day.
  replace (- (P * MS_PER_DAY - t)) with (t + (- P) * MS_PER_DAY) by lia.
  rewrite Z.div_add by discriminate. lia.
Qed.

Lemma daysUntilPayday_same_day (payDay : Z) :
  daysUntilPayday t1 payDay = daysUntilPayday t2 payDay.
Proof.
  unfold daysUntilPayday. cbv zeta.
  rewrite (payDayDate_same_day payDay), getMonth_same_day, getDate_same_day.
  destruct (payDayDate_midnight t2 payDay) as [P ->].
  rewrite !ceilDiv_midnight, same_day. reflexivity.
Qed.


End SameDay.






(** ** The monthly rule *)

(** Rolling with [setMonth] a day that has passed builds the same date as
    constructing it in the next month. *)
Lemma expenseDate_candidate (today d : Z) :
  0 <= today -> 1 <= d -> expenseDate today d = candidateDate today d.
Proof.
  intros H0 Hd. unfold expenseDate, candidateDate. cbv zeta.
  destruct (Z.leb_spec d (Date.getDate today)) as [L | G]; [ | reflexivity].
  pose proof (YearFromTime_epoch today H0) as Hy.
  pose proof (MonthFromTime_range today) as Rm.
  pose proof (DateFromTime_range today) as Rd.
  fold (Date.getFullYear today) in Hy, Rd. fold (Date.getMonth today) in Rm, Rd.
  fold (Date.getDate today) in Rd.
  set (y := Date.getFullYear today) in *. set (m := Date.getMonth today) in *.
  destruct (civil_of_MakeDay y m d (Date.make y m d) Rm ltac:(lia)
              (Day_make y m d Hy)) as (Ey & Em & Ed).
  unfold Date.setMonth, Date.getMonth. rewrite Ey, Em, Ed.
  rewrite !make_plain by assumption.
  rewrite TimeWithinDay_MakeDate by (split; [lia | reflexivity]). reflexivity.
Qed.

(** C6, as amended: for a clock at or after the epoch and a monthly item of
    day [d] (1..31), the date of the expense is the one that [new Date] builds
    for day [d] of the current month, or of the next month when [d] is not
    after today's day of the month (whatever the pay day): day [d] of that
    month when the month has such a day, otherwise as many days into the month
    after it as are missing; the item adds its full amount when that date is
    before the payday date and nothing otherwise; a day equal to today's is
    rolled. *)
Theorem monthly_rule (today payDay : Z) (total : number) (e : expense) (d : Z) :
  0 <= today -> dayOfMonthOf (day e) = Some d -> 1 <= d <= 31 ->
  expenseDate today d = candidateDate today d
  /\ civil (expenseDate today d)
     = lands (fst (expenseMonth today d)) (snd (expenseMonth today d)) d
  /\ (d <= Date.DaysInMonth (fst (expenseMonth today d))
             (snd (expenseMonth today d))
      -> candidate_in_its_month today d)
  /\ monthlyStep today payDay total e
     = (if expenseDate today d <? payDayDate today payDay
        then (total + getExpenseAmount (amount e))%float
        else total)
  /\ (d = Date.getDate today ->
      expenseDate today d
      = Date.make (Date.getFullYear today) (Date.getMonth today + 1) d).
Proof.
  intros H0 D R.
  pose proof (expenseDate_candidate today d H0 ltac:(lia)) as E.
  pose proof (YearFromTime_epoch today H0) as Hy.
  pose proof (MonthFromTime_range today) as Rm.
  assert (C : civil (expenseDate today d)
              = lands (fst (expenseMonth today d)) (snd (expenseMonth today d)) d).
  { rewrite E. unfold candidateDate, expenseMonth. cbv zeta.
    destruct (d <=? Date.getDate today).
    - apply civil_make_next; assumption.
    - apply civil_make; assumption. }
  split; [exact E | split; [exact C | split; [ | split]]].
  - intros L. unfold candidate_in_its_month. rewrite C. unfold lands.
    destruct (Z.leb_spec d
                (Date.DaysInMonth (fst (expenseMonth today d))
                   (snd (expenseMonth today d)))); [reflexivity | lia].
  - unfold monthlyStep. rewrite D. reflexivity.
  - intros ->. rewrite E. unfold candidateDate. cbv zeta.
    rewrite Z.leb_refl. reflexivity.
Qed.

Lemma monthly_rule_witness :
  let today := Date.at_clock 2024 1 10 9 30 in
  let e := mkExpense junk (text 50 50) (text 20 20) in
  0 <= today /\ 1 <= 20 <= 31
  /\ civil (expenseDate today 20) = (2024, 0, 20)
  /\ monthlyStep today 25 0%float e
     = (if expenseDate today 20 <? payDayDate today 25
        then (0 + 50)%float else 0%float).
Proof.
  intros today e.
  assert (H0 : 0 <= today) by (vm_compute; discriminate).
  assert (R : 1 <= 20 <= 31) by lia.
  split; [exact H0 | split; [exact R | split]].
  - exact (proj1 (proj2 (monthly_rule today 25 0%float e 20 H0 eq_refl R))).
  - exact (proj1 (proj2 (proj2 (proj2
             (monthly_rule today 25 0%float e 20 H0 eq_refl R))))).
Defined.

(** C6, as stated, fails: on 10 February 2024 a monthly expense of day 31
    (after today's day of the month, so of the current month) gets the date
    2 March, not a day of February. *)
Lemma monthly_candidate_fails :
  1 <= 31 <= 31
  /\ dayOfMonthOf (day (mkExpense junk (text 50 50) (text 31 31))) = Some 31
  /\ civil (expenseDate (Date.at_clock 2024 2 10 9 30) 31) = (2024, 2, 2)
  /\ ~ candidate_in_its_month (Date.at_clock 2024 2 10 9 30) 31.
Proof.
  split; [lia | split; [reflexivity | split; [reflexivity | ]]].
  unfold candidate_in_its_month. vm_compute. discriminate.
Qed.

(** ** The daily rule on the payday *)

Lemma next_month_differs (y m : Z) :
  0 <= m <= 11 ->
  snd (Date.next_month y m) <> m
  /\ snd (Date.next_month (fst (Date.next_month y m)) (snd (Date.next_month y m)))
     <> m.
Proof.
  intros R. month_cases m; eval_next_month; cbn [fst snd];
    eval_next_month; cbn [snd]; split; discriminate.
Qed.

(** When the pay day is today's day of the month the payday date is not in
    today's month: the test of the edge case (line 181) fails. *)
Lemma same_day_override_unreachable (today payDay : Z) :
  0 <= today -> Date.getDate today = payDay ->
  Date.getMonth (payDayDate today payDay) <> Date.getMonth today.
Proof.
  intros H0 E.
  pose proof (YearFromTime_epoch today H0) as Hy.
  pose proof (MonthFromTime_range today) as Rm.
  pose proof (DateFromTime_range today) as Rd.
  pose proof (DaysInMonth_range (Date.YearFromTime today)
                (Date.MonthFromTime today)) as B.
  fold (Date.getDate today) in Rd.
  assert (C : civil (payDayDate today payDay)
              = lands (fst (Date.next_month (Date.getFullYear today)
                              (Date.getMonth today)))
                  (snd (Date.next_month (Date.getFullYear today)
                          (Date.getMonth today))) payDay).
  { unfold payDayDate. cbv zeta. rewrite E, Z.leb_refl.
    apply civil_make_next; try assumption. lia. }
  apply (f_equal (fun c => snd (fst c))) in C.
  unfold civil in C. cbn [fst snd] in C. rewrite C.
  destruct (next_month_differs (Date.getFullYear today) (Date.getMonth today) Rm)
    as [N1 N2].
  unfold lands.
  destruct (payDay <=? _); cbn [fst snd]; assumption.
Qed.

(** On the payday the number of days counted is the length of today's month,
    not 1. *)
Lemma daysUntilPayday_on_payday (today payDay : Z) :
  0 <= today -> Date.getDate today = payDay ->
  daysUntilPayday today payDay
  = Date.DaysInMonth (Date.getFullYear today) (Date.getMonth today).
Proof.
  intros H0 E.
  pose proof (same_day_override_unreachable today payDay H0 E) as N.
  pose proof (DateFromTime_range today) as Rd.
  pose proof (DaysInMonth_range (Date.YearFromTime today)
                (Date.MonthFromTime today)) as B.
  fold (Date.getDate today) in Rd.
  unfold daysUntilPayday. cbv zeta.
  apply Z.eqb_neq in N. rewrite N, andb_false_r.
  destruct (payDayDate_ahead today payDay H0 ltac:(lia)) as (n & _ & -> & ->).
  rewrite ceilDiv_midnight, E, Z.leb_refl. lia.
Qed.

(** C1 fails on the code: on 25 January 2024, with pay day 25, a daily
    expense of 2 is counted for the 31 days to the payday of February and
    contributes 62, not 2, at any clock time. *)
Theorem same_day_daily_contribution (tod : Z) :
  let today := Date.MakeDate (Date.MakeDay 2024 0 25) tod in
  0 <= tod < MS_PER_DAY ->
  Date.getDate today = 25
  /\ civil (payDayDate today 25) = (2024, 1, 25)
  /\ daysUntilPayday today 25 = 31
  /\ dailyExpenses (oneDaily (text 2 2)) today 25 = 62%float
  /\ dailyExpenses (oneDaily (text 2 2)) today 25 <> 2%float.
Proof.
  intros today R.
  assert (E : Date.Day today = Date.Day (Date.at_clock 2024 1 25 0 0)).
  { unfold today. rewrite Day_MakeDate by assumption. reflexivity. }
  assert (D : Date.getDate today = 25).
  { rewrite (getDate_same_day _ _ E). reflexivity. }
  assert (U : daysUntilPayday today 25 = 31).
  { rewrite (daysUntilPayday_same_day _ _ E). reflexivity. }
  assert (V : dailyExpenses (oneDaily (text 2 2)) today 25 = 62%float).
  { unfold dailyExpenses, oneDaily, dailyStep. cbn [dailyContainer fold_left].
    rewrite U. reflexivity. }
  assert (P : civil (payDayDate today 25) = (2024, 1, 25)).
  { rewrite (payDayDate_same_day _ _ E). reflexivity. }
  split; [exact D | split; [exact P | split; [exact U | split; [exact V | ]]]].
  rewrite V. intros A.
  apply (f_equal (fun x => PrimFloat.ltb 2 x)) in A. vm_compute in A. discriminate.
Qed.

Lemma same_day_daily_contribution_witness :
  0 <= 34200000 < MS_PER_DAY
  /\ dailyExpenses (oneDaily (text 2 2)) (Date.at_clock 2024 1 25 9 30) 25
     = 62%float.
Proof.
  assert (R : 0 <= 34200000 < MS_PER_DAY) by (split; [lia | reflexivity]).
  split; [exact R | ].
  exact (proj1 (proj2 (proj2 (proj2 (same_day_daily_contribution 34200000 R))))).
Defined.

(** ** The worked example *)

(** C3: on Wednesday 10 January 2024, at any clock time, with pay day 25: the
    payday date is 25 January; a daily expense of 2 contributes 30; a weekly
    expense of 10 on Wednesday contributes 20, for 17 and 24 January; a
    monthly expense of 50 on the 20th contributes 50; the total is 100. *)
Theorem worked_example (tod : Z) :
  let today := Date.MakeDate (Date.MakeDay 2024 0 10) tod in
  0 <= tod < MS_PER_DAY ->
  Date.getDay today = 3
  /\ payDayDate today 25 = Date.make 2024 0 25
  /\ dailyExpenses ex3 today 25 = 30%float
  /\ findNextOccurrence 8 today (Some 3) today = Some (today + 7 * MS_PER_DAY)
  /\ civil (today + 7 * MS_PER_DAY) = (2024, 0, 17)
  /\ civil (today + 14 * MS_PER_DAY) = (2024, 0, 24)
  /\ (today + 14 * MS_PER_DAY < payDayDate today 25 <= today + 21 * MS_PER_DAY)
  /\ weeklyOccurrences 8 today (payDayDate today 25) (Some 3) = Some 2
  /\ weeklyExpenses 8 ex3 today 25 = Some 20%float
  /\ monthlyExpenses ex3 today 25 = 50%float
  /\ calculateExpensesUntilPayday 8 ex3 today 25 = Some 100%float.
Proof.
  intros today R.
  set (midnight := Date.at_clock 2024 1 10 0 0).
  assert (E : Date.Day today = Date.Day midnight).
  { unfold today. rewrite Day_MakeDate by assumption. reflexivity. }
  assert (T : today = midnight + tod).
  { unfold today, midnight, Date.MakeDate.
    change (Date.at_clock 2024 1 10 0 0)
      with (Date.MakeDay 2024 0 10 * MS_PER_DAY + 0). lia. }
  assert (W : Date.getDay today = 3).
  { rewrite (getDay_same_day _ _ E). reflexivity. }
  assert (P : payDayDate today 25 = Date.make 2024 0 25).
  { rewrite (payDayDate_same_day _ _ E). reflexivity. }
  assert (D : dailyExpenses ex3 today 25 = 30%float).
  { unfold dailyExpenses, dailyStep. cbn [ex3 dailyContainer fold_left].
    rewrite (daysUntilPayday_same_day _ _ E). reflexivity. }
  assert (M : monthlyExpenses ex3 today 25 = 50%float).
  { unfold monthlyExpenses, monthlyStep. cbn [ex3 monthlyContainer fold_left].
    cbn [day dayOfMonthOf text].
    rewrite (expenseDate_same_day _ _ E), P. reflexivity. }
  assert (F : findNextOccurrence 8 today (Some 3) today
              = Some (today + 7 * MS_PER_DAY)).
  { rewrite findNextOccurrence_spec by lia. rewrite W. reflexivity. }
  assert (C1 : civil (today + 7 * MS_PER_DAY) = (2024, 0, 17)).
  { rewrite (civil_same_day _ (Date.at_clock 2024 1 17 0 0)); [reflexivity | ].
    rewrite Day_shift, E. reflexivity. }
  assert (C2 : civil (today + 14 * MS_PER_DAY) = (2024, 0, 24)).
  { rewrite (civil_same_day _ (Date.at_clock 2024 1 24 0 0)); [reflexivity | ].
    rewrite Day_shift, E. reflexivity. }
  assert (B : today + 14 * MS_PER_DAY < payDayDate today 25
              <= today + 21 * MS_PER_DAY).
  { rewrite P, T. change (Date.make 2024 0 25) with (midnight + 15 * MS_PER_DAY).
    unfold MS_PER_DAY in *. lia. }
  assert (O : weeklyOccurrences 8 today (payDayDate today 25) (Some 3) = Some 2).
  { assert (N : occurrencesBefore (payDayDate today 25) (today + 7 * MS_PER_DAY)
                = 2).
    { unfold occurrencesBefore, ceilDiv.
      change (DAYS_IN_WEEK * MS_PER_DAY) with 604800000.
      unfold MS_PER_DAY in *. Z.div_mod_to_equations. lia. }
    unfold weeklyOccurrences. rewrite F.
    rewrite countOccurrences_spec by (rewrite N; cbn; lia).
    rewrite N. reflexivity. }
  assert (K : weeklyExpenses 8 ex3 today 25 = Some 20%float).
  { unfold weeklyExpenses, weeklyStep. cbn [ex3 weeklyContainer reduceM].
    cbn [day text]. rewrite O. reflexivity. }
  assert (C : calculateExpensesUntilPayday 8 ex3 today 25 = Some 100%float).
  { unfold calculateExpensesUntilPayday. rewrite K, D, M. reflexivity. }
  exact (conj W (conj P (conj D (conj F (conj C1 (conj C2 (conj B (conj O
           (conj K (conj M C)))))))))).
Qed.

Lemma worked_example_witness :
  0 <= 34200000 < MS_PER_DAY
  /\ calculateExpensesUntilPayday 8 ex3 (Date.at_clock 2024 1 10 9 30) 25
     = Some 100%float.
Proof.
  assert (R : 0 <= 34200000 < MS_PER_DAY) by (split; [lia | reflexivity]).
  split; [exact R | ].
  exact (proj2 (proj2 (proj2 (proj2 (proj2 (proj2 (proj2 (proj2 (proj2 (proj2
           (worked_example 34200000 R))))))))))).
Defined.

(** ** The monthly total *)

Lemma amount_entries (kind : string) (hasDay : bool) (l : list expense) :
  endsWith (kind ++ "-name") "-amount" = false ->
  endsWith (kind ++ "-amount") "-amount" = true ->
  endsWith (kind ++ "-day") "-amount" = false ->
  filter (fun e : entry => endsWith (fst e) "-amount")
    (flat_map (controls kind hasDay) l)
  = map (fun e => ((kind ++ "-amount")%string, amount e)) l.
Proof.
  intros N A D. induction l as [ | e l IH]; [reflexivity | ].
  cbn [flat_map]. rewrite filter_app, IH. unfold controls.
  destruct hasDay; cbn [filter app fst]; rewrite N, A, ?D; reflexivity.
Qed.

Lemma fold_addEntry (key : string) (l : list expense) (acc : number) :
  fold_left addEntry (map (fun e => (key, amount e)) l) acc
  = fold_left PrimFloat.add
      (map (fun e => amountOrZero (amount e) * multiplierOrZero key)%float l) acc.
Proof.
  revert acc. induction l as [ | e l IH]; intros acc; [reflexivity | ].
  cbn [map fold_left]. rewrite IH. reflexivity.
Qed.

Lemma monthlyTotal_contributions (els : elements) :
  monthlyTotal els = sumOf (contributions els).
Proof.
  unfold monthlyTotal, monthlyTotalOf, FormData, sumOf, contributions.
  rewrite !filter_app.
  rewrite !amount_entries by reflexivity.
  cbn [filter fst]. change (endsWith "pay-day" "-amount") with false. cbn iota.
  rewrite app_nil_r, !fold_left_app, !fold_addEntry.
  reflexivity.
Qed.

(** C4: the monthly total is the sum, over the monthly, the weekly and the
    daily items in turn, of the amount times 1, times 31/7 and times 31; an
    amount that [parseFloat] cannot read counts as 0. *)
Theorem monthlyTotal_weighted_sum (els : elements) :
  monthlyTotal els = sumOf (contributions els)
  /\ (forall v, PrimFloat.is_nan (parseFloat v) = true ->
                amountOrZero v = PrimFloat.zero)
  /\ amountOrZero Blank = PrimFloat.zero
  /\ amountOrZero junk = PrimFloat.zero.
Proof.
  split; [apply monthlyTotal_contributions | split; [ | split; reflexivity]].
  intros v N. unfold amountOrZero, Num.or_else, Num.truthy. rewrite N. reflexivity.
Qed.

Lemma monthlyTotal_weighted_sum_witness :
  PrimFloat.is_nan (parseFloat junk) = true
  /\ amountOrZero junk = PrimFloat.zero
  /\ monthlyTotal ex3 = sumOf [50 * 1; 10 * (31 / 7); 2 * 31]%float.
Proof.
  assert (N : PrimFloat.is_nan (parseFloat junk) = true) by reflexivity.
  split; [exact N | split].
  - exact (proj1 (proj2 (monthlyTotal_weighted_sum ex3)) junk N).
  - exact (proj1 (monthlyTotal_weighted_sum ex3)).
Defined.

(** ** Order of the items *)

Lemma contributions_permuted (a b : elements) :
  permuted a b -> Permutation (contributions a) (contributions b).
Proof.
  intros (M & W & D & _). unfold contributions.
  repeat apply Permutation_app; apply Permutation_map; assumption.
Qed.

(** C7, as amended: when the items of each container are permuted, the
    monthly total adds up the same contributions, one for each item, in
    another order; each total is the sum, from left to right, of its list. *)
Theorem monthlyTotal_permuted (a b : elements) :
  permuted a b ->
  Permutation (contributions a) (contributions b)
  /\ monthlyTotal a = sumOf (contributions a)
  /\ monthlyTotal b = sumOf (contributions b).
Proof.
  intros P. split; [apply contributions_permuted, P | ].
  split; apply monthlyTotal_contributions.
Qed.

Lemma tenths_permuted : permuted tenths123 tenths321.
Proof.
  unfold permuted, tenths123, tenths321. cbn [monthlyContainer weeklyContainer
    dailyContainer payDayInput].
  repeat split; try apply Permutation_refl.
  apply Permutation_rev with (l := [_; _; _]).
Qed.

Lemma monthlyTotal_permuted_witness :
  permuted tenths123 tenths321
  /\ Permutation (contributions tenths123) (contributions tenths321).
Proof.
  split; [exact tenths_permuted | ].
  exact (proj1 (monthlyTotal_permuted tenths123 tenths321 tenths_permuted)).
Defined.

(** C7, as stated, fails: amounts 0.1, 0.2 and 0.3 add up to
    0.6000000000000001 in this order and to 0.6 in the reverse order. *)
Lemma monthlyTotal_order_matters :
  permuted tenths123 tenths321
  /\ weeklyContainer tenths123 = weeklyContainer tenths321
  /\ dailyContainer tenths123 = dailyContainer tenths321
  /\ monthlyTotal tenths123 <> monthlyTotal tenths321.
Proof.
  split; [exact tenths_permuted | split; [reflexivity | split; [reflexivity | ]]].
  intros E.
  apply (f_equal (fun x => PrimFloat.ltb (monthlyTotal tenths321) x)) in E.
  vm_compute in E. discriminate.
Qed.

(** ** Amounts and days that are not numbers *)

Lemma findNextOccurrence_step (fuel : nat) (today : Z) (targetDay : option Z)
    (next : Z) :
  findNextOccurrence (S fuel) today targetDay next
  = if differs (Date.getDay next) targetDay || (next <=? today)
    then findNextOccurrence fuel today targetDay
           (Date.setDate next (Date.getDate next + 1))
    else Some next.
Proof. reflexivity. Qed.

(** With a target day that is [NaN] the search never stops. *)
Lemma findNextOccurrence_NaN (fuel : nat) :
  forall today next, findNextOccurrence fuel today None next = None.
Proof.
  induction fuel as [ | fuel IH]; intros today next; [reflexivity | ].
  rewrite findNextOccurrence_step. cbn [differs orb]. apply IH.
Qed.

(** C8 fails on the code: an amount that is text and not a number makes the
    projection [NaN] in each of the three containers, while the monthly total
    of the same page reads it as 0; and a weekly day that is not a number
    keeps the first loop from ever returning. *)
Theorem unparseable_amount_gives_NaN :
  let today := Date.at_clock 2024 1 10 9 30 in
  calculateExpensesUntilPayday 8 (oneDaily junk) today 25 = Some PrimFloat.nan
  /\ calculateExpensesUntilPayday 8 (oneWeekly junk (text 3 3)) today 25
     = Some PrimFloat.nan
  /\ calculateExpensesUntilPayday 8 (oneMonthly junk (text 20 20)) today 25
     = Some PrimFloat.nan
  /\ updateTotals 8 (oneDaily junk) today = (PrimFloat.zero, Some PrimFloat.nan)
  /\ (forall fuel,
        calculateExpensesUntilPayday fuel (oneWeekly (text 10 10) junk) today 25
        = None).
Proof.
  cbv zeta.
  do 4 (split; [vm_compute; reflexivity | ]).
  intros fuel. unfold calculateExpensesUntilPayday, weeklyExpenses, weeklyStep.
  cbn [oneWeekly weeklyContainer reduceM day junk].
  unfold weeklyOccurrences. rewrite findNextOccurrence_NaN. reflexivity.
Qed.

(** * Further properties of the code *)

(** ** Days and dates counted from the start of today's month *)

(** Day [x] of today's month, or of the next month when [x] is not after
    today's day, is midnight [position x] - today's day after today. *)
Lemma make_at_position (today x : Z) :
  0 <= today ->
  (if x <=? Date.getDate today
   then Date.make (Date.getFullYear today) (Date.getMonth today + 1) x
   else Date.make (Date.getFullYear today) (Date.getMonth today) x)
  = (Date.Day today
     + (position (Date.getDate today)
          (Date.DaysInMonth (Date.getFullYear today) (Date.getMonth today)) x
        - Date.getDate today)) * MS_PER_DAY.
Proof.
  intros H0.
  pose proof (YearFromTime_epoch today H0) as Hy.
  pose proof (MonthFromTime_range today) as Rm.
  pose proof (Day_of_civil today) as E.
  fold (Date.getFullYear today) in Hy. fold (Date.getMonth today) in Rm.
  unfold position.
  destruct (x <=? Date.getDate today);
    rewrite make_plain by assumption; unfold Date.MakeDate;
    rewrite Z.add_0_r; f_equal; rewrite E.
  - rewrite <- MakeDay_overflow by assumption.
    rewrite <- MakeDay_shift. f_equal. lia.
  - rewrite <- MakeDay_shift. f_equal. lia.
Qed.

Lemma ltb_scaled (a b : Z) : (a * MS_PER_DAY <? b * MS_PER_DAY) = (a <? b).
Proof.
  pose proof MS_PER_DAY_pos.
  destruct (Z.ltb_spec a b), (Z.ltb_spec (a * MS_PER_DAY) (b * MS_PER_DAY));
    solve [reflexivity | nia].
Qed.

(** The test of the monthly rule, in days of the month. *)
Lemma expenseDate_before_payday (today payDay d : Z) :
  0 <= today -> 1 <= d ->
  (expenseDate today d <? payDayDate today payDay)
  = (position (Date.getDate today)
       (Date.DaysInMonth (Date.getFullYear today) (Date.getMonth today)) d
     <? position (Date.getDate today)
          (Date.DaysInMonth (Date.getFullYear today) (Date.getMonth today))
          payDay).
Proof.
  intros H0 Hd. rewrite expenseDate_candidate by assumption.
  unfold candidateDate, payDayDate. cbv zeta.
  rewrite !make_at_position by assumption.
  rewrite ltb_scaled.
  set (pd := position _ _ d). set (pp := position _ _ payDay).
  destruct (Z.ltb_spec pd pp),
    (Z.ltb_spec (Date.Day today + (pd - Date.getDate today))
       (Date.Day today + (pp - Date.getDate today))); solve [reflexivity | lia].
Qed.

Lemma daysUntilPayday_position (today payDay : Z) :
  0 <= today ->
  daysUntilPayday today payDay
  = position (Date.getDate today)
      (Date.DaysInMonth (Date.getFullYear today) (Date.getMonth today)) payDay
    - Date.getDate today
  /\ payDayDate today payDay
     = (Date.Day today + daysUntilPayday today payDay) * MS_PER_DAY.
Proof.
  intros H0.
  assert (P : payDayDate today payDay
              = (Date.Day today
                 + (position (Date.getDate today)
                      (Date.DaysInMonth (Date.getFullYear today)
                         (Date.getMonth today)) payDay
                    - Date.getDate today)) * MS_PER_DAY).
  { unfold payDayDate. cbv zeta. apply make_at_position, H0. }
  assert (V : daysUntilPayday today payDay
              = position (Date.getDate today)
                  (Date.DaysInMonth (Date.getFullYear today)
                     (Date.getMonth today)) payDay
                - Date.getDate today).
  { unfold daysUntilPayday. cbv zeta.
    assert (T : (Date.getDate today =? payDay)
                && (Date.getMonth (payDayDate today payDay)
                    =? Date.getMonth today) = false).
    { destruct (Z.eqb_spec (Date.getDate today) payDay) as [Q | Q];
        [ | reflexivity].
      pose proof (same_day_override_unreachable today payDay H0 Q) as N.
      apply Z.eqb_neq in N. rewrite N. reflexivity. }
    rewrite T, P, ceilDiv_midnight. lia. }
  split; [exact V | ]. rewrite V. exact P.
Qed.

Lemma daysUntilPayday_range (today payDay : Z) :
  0 <= today -> 1 <= payDay <= 31 -> 1 <= daysUntilPayday today payDay <= 31.
Proof.
  intros H0 R.
  pose proof (DateFromTime_range today) as Rd.
  pose proof (DaysInMonth_range (Date.YearFromTime today)
                (Date.MonthFromTime today)) as B.
  fold (Date.getDate today) (Date.getFullYear today) (Date.getMonth today) in Rd.
  fold (Date.getFullYear today) (Date.getMonth today) in B.
  rewrite (proj1 (daysUntilPayday_position today payDay H0)).
  unfold position. destruct (Z.leb_spec payDay (Date.getDate today)); lia.
Qed.

(** X2: for a clock at or after the epoch, a monthly item of day [d >= 1]
    adds its amount exactly when [d] comes before the pay day, both counted
    from the start of today's month and a day that is not after today's day
    counted in the next month; this holds whatever the lengths of the months
    and whether or not the dates run over the end of a month. *)
Theorem monthly_included_by_position (today payDay : Z) (total : number)
    (e : expense) (d : Z) :
  0 <= today -> dayOfMonthOf (day e) = Some d -> 1 <= d ->
  monthlyStep today payDay total e
  = (if position (Date.getDate today)
          (Date.DaysInMonth (Date.getFullYear today) (Date.getMonth today)) d
        <? position (Date.getDate today)
             (Date.DaysInMonth (Date.getFullYear today) (Date.getMonth today))
             payDay
     then (total + getExpenseAmount (amount e))%float
     else total).
Proof.
  intros H0 D Hd. unfold monthlyStep. rewrite D.
  rewrite expenseDate_before_payday by assumption. reflexivity.
Qed.

Lemma monthly_included_by_position_witness :
  let today := Date.at_clock 2024 2 10 9 30 in
  let e := mkExpense junk (text 50 50) (text 31 31) in
  0 <= today /\ 1 <= 31
  /\ monthlyStep today 1 0%float e = 0%float.
Proof.
  intros today e.
  assert (H0 : 0 <= today) by (vm_compute; discriminate).
  assert (Hd : 1 <= 31) by lia.
  split; [exact H0 | split; [exact Hd | ]].
  exact (monthly_included_by_position today 1 0%float e 31 H0 eq_refl Hd).
Defined.

(** X3: for a clock at or after the epoch, a monthly expense whose day is the
    pay day itself is never included, whatever its amount. *)
Theorem monthly_due_on_payday_excluded (today payDay : Z) (total : number)
    (e : expense) :
  0 <= today -> dayOfMonthOf (day e) = Some payDay -> 1 <= payDay ->
  monthlyStep today payDay total e = total.
Proof.
  intros H0 D Hd. unfold monthlyStep. rewrite D.
  rewrite expenseDate_before_payday by assumption.
  rewrite Z.ltb_irrefl. reflexivity.
Qed.

Lemma monthly_due_on_payday_excluded_witness :
  let today := Date.at_clock 2024 1 10 9 30 in
  let e := mkExpense junk (text 50 50) (text 25 25) in
  0 <= today /\ 1 <= 25 /\ monthlyStep today 25 0%float e = 0%float.
Proof.
  intros today e.
  assert (H0 : 0 <= today) by (vm_compute; discriminate).
  assert (Hd : 1 <= 25) by lia.
  split; [exact H0 | split; [exact Hd | ]].
  exact (monthly_due_on_payday_excluded today 25 0%float e H0 eq_refl Hd).
Defined.

(** ** The weekly count in calendar days *)

Lemma occurrencesBefore_in_days (t n k : Z) :
  occurrencesBefore ((Date.Day t + n) * MS_PER_DAY) (t + k * MS_PER_DAY)
  = Z.max 0 (ceilDiv (n - k) 7).
Proof.
  pose proof (MakeDate_Day t) as E. pose proof (TimeWithinDay_range t) as R.
  unfold Date.MakeDate in E.
  set (D := Date.Day t) in *. set (tod := Date.TimeWithinDay t) in *.
  rewrite <- E. unfold occurrencesBefore, ceilDiv.
  change (DAYS_IN_WEEK * MS_PER_DAY) with 604800000.
  unfold MS_PER_DAY in *. Z.div_mod_to_equations. lia.
Qed.

Lemma weeklyOccurrences_in_days (fuel : nat) (today payDay target : Z) :
  0 <= today -> 1 <= payDay <= 31 -> 0 <= target <= 6 -> (8 <= fuel)%nat ->
  weeklyOccurrences fuel today (payDayDate today payDay) (Some target)
  = Some (Z.max 0 (ceilDiv (daysUntilPayday today payDay
                            - daysToNext (Date.getDay today) target) 7)).
Proof.
  intros H0 Rp Rt F.
  pose proof (daysUntilPayday_range today payDay H0 Rp) as B.
  pose proof (daysToNext_range (Date.getDay today) target) as K.
  rewrite (proj2 (daysUntilPayday_position today payDay H0)).
  unfold weeklyOccurrences.
  rewrite findNextOccurrence_spec by assumption.
  rewrite countOccurrences_spec; rewrite occurrencesBefore_in_days.
  - reflexivity.
  - assert (Z.max 0 (ceilDiv (daysUntilPayday today payDay
                              - daysToNext (Date.getDay today) target) 7) <= 5);
      [ | lia].
    unfold ceilDiv. Z.div_mod_to_equations. lia.
Qed.

Lemma In_zrange (lo z : Z) (len : nat) :
  lo <= z < lo + Z.of_nat len -> In z (zrange lo len).
Proof.
  intros R. unfold zrange. apply in_map_iff.
  exists (Z.to_nat (z - lo)). split; [lia | ].
  apply in_seq. lia.
Qed.

Lemma matchingDays_by_weeks (w t n : Z) :
  0 <= w <= 6 -> 0 <= t <= 6 -> 1 <= n <= 31 ->
  matchingDays w t n = Z.max 0 (ceilDiv (n - daysToNext w t) 7).
Proof.
  intros Rw Rt Rn.
  assert (C : matchingDaysChecked = true) by (vm_compute; reflexivity).
  unfold matchingDaysChecked in C.
  rewrite forallb_forall in C.
  specialize (C w (In_zrange 0 w 7 ltac:(lia))).
  rewrite forallb_forall in C.
  specialize (C t (In_zrange 0 t 7 ltac:(lia))).
  rewrite forallb_forall in C.
  specialize (C n (In_zrange 1 n 31 ltac:(lia))).
  apply Z.eqb_eq in C. exact C.
Qed.

(** X4: for a clock at or after the epoch, a pay day from 1 to 31 and a
    weekday from 0 to 6, the occurrences counted for a weekly item are the
    calendar days strictly after today and strictly before the payday whose
    weekday is the item's: neither today nor the payday itself counts. *)
Theorem weekly_counts_days_between (fuel : nat) (today payDay target : Z) :
  0 <= today -> 1 <= payDay <= 31 -> 0 <= target <= 6 -> (8 <= fuel)%nat ->
  weeklyOccurrences fuel today (payDayDate today payDay) (Some target)
  = Some (Z.of_nat
            (List.length
               (filter (fun j => Date.getDay (today + j * MS_PER_DAY) =? target)
                  (daysBetween (daysUntilPayday today payDay))))).
Proof.
  intros H0 Rp Rt F.
  rewrite weeklyOccurrences_in_days by assumption.
  rewrite <- matchingDays_by_weeks;
    [ | apply WeekDay_range | assumption
      | apply daysUntilPayday_range; assumption ].
  unfold matchingDays. do 3 f_equal.
  apply filter_ext. intros j. unfold Date.getDay at 2.
  rewrite WeekDay_shift. reflexivity.
Qed.

Lemma weekly_counts_days_between_witness :
  let today := Date.at_clock 2024 1 10 9 30 in
  0 <= today /\ 1 <= 25 <= 31 /\ 0 <= 3 <= 6 /\ (8 <= 8)%nat
  /\ weeklyOccurrences 8 today (payDayDate today 25) (Some 3)
     = Some (Z.of_nat
               (List.length
                  (filter (fun j => Date.getDay (today + j * MS_PER_DAY) =? 3)
                     (daysBetween (daysUntilPayday today 25))))).
Proof.
  intros today.
  assert (H0 : 0 <= today) by (vm_compute; discriminate).
  assert (Rp : 1 <= 25 <= 31) by lia.
  assert (Rt : 0 <= 3 <= 6) by lia.
  assert (F : (8 <= 8)%nat) by lia.
  split; [exact H0 | split; [exact Rp | split; [exact Rt | split; [exact F | ]]]].
  exact (weekly_counts_days_between 8 today 25 3 H0 Rp Rt F).
Defined.

(** ** When the projection returns *)

Lemma reduceM_ext_in {A B : Type} (f g : B -> A -> option B) (l : list A) (b : B) :
  (forall acc x, In x l -> f acc x = g acc x) -> reduceM f l b = reduceM g l b.
Proof.
  revert b. induction l as [ | x l IH]; intros b E; cbn; [reflexivity | ].
  rewrite E by (left; reflexivity).
  destruct (g b x); [ | reflexivity].
  apply IH. intros acc y I. apply E. right. exact I.
Qed.

Lemma reduceM_returns {A B : Type} (f : B -> A -> option B) (l : list A) :
  (forall acc x, In x l -> exists r, f acc x = Some r) ->
  forall b, exists r, reduceM f l b = Some r.
Proof.
  induction l as [ | x l IH]; intros E b; cbn; [eexists; reflexivity | ].
  destruct (E b x (or_introl eq_refl)) as [r ->].
  apply IH. intros acc y I. apply E. right. exact I.
Qed.

Lemma reduceM_never {A B : Type} (f : B -> A -> option B) (l : list A) :
  Exists (fun x => forall acc, f acc x = None) l ->
  forall b, reduceM f l b = None.
Proof.
  induction 1 as [x l N | x l _ IH]; intros b; cbn.
  - rewrite N. reflexivity.
  - destruct (f b x); [apply IH | reflexivity].
Qed.

Lemma weeklyStep_weekday (fuel : nat) (today payDay : Z) (total : number)
    (e : expense) :
  0 <= today -> 1 <= payDay <= 31 -> weekdayOrBlank e -> (8 <= fuel)%nat ->
  weeklyStep fuel today (payDayDate today payDay) total e
  = weeklyStep 8 today (payDayDate today payDay) total e
  /\ exists r, weeklyStep fuel today (payDayDate today payDay) total e = Some r.
Proof.
  intros H0 Rp W F. unfold weeklyStep.
  destruct W as [-> | (f & t & -> & Rt)].
  - split; [reflexivity | eexists; reflexivity].
  - rewrite !weeklyOccurrences_in_days by (assumption || lia).
    split; [reflexivity | eexists; reflexivity].
Qed.

(** X5: for a clock at or after the epoch and a pay day from 1 to 31, the
    projection of a page whose weekly day selects are blank or hold a weekday
    (0..6) returns a number, after at most 8 tests of each loop; more tests
    give the same number. *)
Theorem projection_returns (fuel : nat) (els : elements) (today payDay : Z) :
  0 <= today -> 1 <= payDay <= 31 ->
  Forall weekdayOrBlank (weeklyContainer els) -> (8 <= fuel)%nat ->
  (exists r, calculateExpensesUntilPayday 8 els today payDay = Some r)
  /\ calculateExpensesUntilPayday fuel els today payDay
     = calculateExpensesUntilPayday 8 els today payDay.
Proof.
  intros H0 Rp W F. rewrite Forall_forall in W.
  unfold calculateExpensesUntilPayday, weeklyExpenses.
  assert (E : reduceM (weeklyStep fuel today (payDayDate today payDay))
                (weeklyContainer els) PrimFloat.zero
              = reduceM (weeklyStep 8 today (payDayDate today payDay))
                  (weeklyContainer els) PrimFloat.zero).
  { apply reduceM_ext_in. intros acc x I.
    apply weeklyStep_weekday; auto. }
  destruct (reduceM_returns (weeklyStep 8 today (payDayDate today payDay))
              (weeklyContainer els)) with (b := PrimFloat.zero) as [r R].
  { intros acc x I. apply weeklyStep_weekday; auto. }
  rewrite E, R. split; [eexists; reflexivity | reflexivity].
Qed.

Lemma projection_returns_witness :
  let today := Date.at_clock 2024 1 10 9 30 in
  0 <= today /\ 1 <= 25 <= 31 /\ Forall weekdayOrBlank (weeklyContainer ex3)
  /\ (8 <= 20)%nat
  /\ calculateExpensesUntilPayday 20 ex3 today 25
     = calculateExpensesUntilPayday 8 ex3 today 25.
Proof.
  intros today.
  assert (H0 : 0 <= today) by (vm_compute; discriminate).
  assert (Rp : 1 <= 25 <= 31) by lia.
  assert (W : Forall weekdayOrBlank (weeklyContainer ex3)).
  { apply Forall_cons; [ | apply Forall_nil].
    right. exists 3%float, 3. split; [reflexivity | lia]. }
  assert (F : (8 <= 20)%nat) by lia.
  split; [exact H0 | split; [exact Rp | split; [exact W | split; [exact F | ]]]].
  exact (proj2 (projection_returns 20 ex3 today 25 H0 Rp W F)).
Defined.

Lemma findNextOccurrence_no_weekday (t : option Z) (fuel : nat) :
  (forall z, t = Some z -> ~ 0 <= z <= 6) ->
  forall today next, findNextOccurrence fuel today t next = None.
Proof.
  intros N. induction fuel as [ | fuel IH]; intros today next; [reflexivity | ].
  rewrite findNextOccurrence_step.
  assert (D : differs (Date.getDay next) t = true).
  { unfold differs. destruct t as [z | ]; [ | reflexivity].
    pose proof (WeekDay_range next) as R. fold (Date.getDay next) in R.
    specialize (N z eq_refl).
    destruct (Z.eqb_spec (Date.getDay next) z); [lia | reflexivity]. }
  rewrite D. cbn [orb]. apply IH.
Qed.

(** X6: when some weekly item has in its day select a text that is not a
    weekday from 0 to 6 (not a number, or a number such as 7), the projection
    never returns, at any date, with any pay day and whatever else the page
    holds. *)
Theorem projection_never_returns (fuel : nat) (els : elements) (today payDay : Z) :
  Exists noWeekday (weeklyContainer els) ->
  calculateExpensesUntilPayday fuel els today payDay = None.
Proof.
  intros X. unfold calculateExpensesUntilPayday, weeklyExpenses.
  rewrite reduceM_never; [reflexivity | ].
  apply Exists_exists in X. destruct X as (e & I & f & t & D & N).
  apply Exists_exists. exists e. split; [exact I | ].
  intros acc. unfold weeklyStep, weeklyOccurrences. rewrite D.
  rewrite findNextOccurrence_no_weekday by exact N. reflexivity.
Qed.

Lemma projection_never_returns_witness :
  Exists noWeekday (weeklyContainer (oneWeekly (text 10 10) (text 7 7)))
  /\ calculateExpensesUntilPayday 1000 (oneWeekly (text 10 10) (text 7 7))
       (Date.at_clock 2024 1 10 9 30) 25 = None.
Proof.
  assert (X : Exists noWeekday (weeklyContainer (oneWeekly (text 10 10) (text 7 7)))).
  { left. exists 7%float, (Some 7). split; [reflexivity | ].
    intros z E. injection E as <-. lia. }
  split; [exact X | ].
  exact (projection_never_returns 1000 _ (Date.at_clock 2024 1 10 9 30) 25 X).
Defined.

(** ** The empty page, the pay day and what the monthly total reads *)

(** X7: on a page without items both totals are 0, at any date and whatever
    the pay-day select holds. *)
Theorem empty_page_totals (fuel : nat) (p : value) (today : Z) :
  updateTotals fuel (freshPage p) today = (PrimFloat.zero, Some PrimFloat.zero).
Proof.
  unfold updateTotals, calculateExpensesUntilPayday, weeklyExpenses,
    dailyExpenses, monthlyExpenses, monthlyTotalOf, FormData, freshPage.
  cbn [monthlyContainer weeklyContainer dailyContainer payDayInput flat_map
       app fold_left reduceM filter fst].
  change (endsWith "pay-day" "-amount") with false. cbn iota.
  reflexivity.
Qed.

Lemma formGet_app_miss (l1 l2 : list entry) (key : string) :
  Forall (fun e : entry => String.eqb (fst e) key = false) l1 ->
  formGet (l1 ++ l2) key = formGet l2 key.
Proof.
  induction 1 as [ | [k v] l N _ IH]; [reflexivity | ].
  cbn [app formGet]. cbn [fst] in N. rewrite N. exact IH.
Qed.

Lemma controls_miss (kind : string) (hasDay : bool) (key : string)
    (l : list expense) :
  String.eqb (kind ++ "-name") key = false ->
  String.eqb (kind ++ "-amount") key = false ->
  String.eqb (kind ++ "-day") key = false ->
  Forall (fun e : entry => String.eqb (fst e) key = false)
    (flat_map (controls kind hasDay) l).
Proof.
  intros N A D. induction l as [ | e l IH]; [constructor | ].
  cbn [flat_map]. apply Forall_app. split; [ | exact IH].
  unfold controls. destruct hasDay; repeat constructor; assumption.
Qed.

Lemma formGet_payDay (els : elements) :
  formGet (FormData els) "pay-day" = Some (payDayInput els).
Proof.
  unfold FormData.
  rewrite !formGet_app_miss by (apply controls_miss; reflexivity).
  reflexivity.
Qed.

(** X9: the monthly total reads nothing but the amounts: two pages whose
    containers hold the same amounts in the same order have the same monthly
    total, whatever their names, days and pay day. *)
Theorem monthlyTotal_reads_amounts (a b : elements) :
  map amount (monthlyContainer a) = map amount (monthlyContainer b) ->
  map amount (weeklyContainer a) = map amount (weeklyContainer b) ->
  map amount (dailyContainer a) = map amount (dailyContainer b) ->
  monthlyTotal a = monthlyTotal b.
Proof.
  intros M W D. rewrite !monthlyTotal_contributions. unfold contributions.
  rewrite <- !(map_map amount (fun v => (amountOrZero v * _)%float)).
  rewrite M, W, D. reflexivity.
Qed.

Lemma monthlyTotal_reads_amounts_witness :
  monthlyTotal ex3
  = monthlyTotal
      (mkElements [mkExpense Blank (text 50 50) Blank]
                  [mkExpense Blank (text 10 10) junk]
                  [mkExpense Blank (text 2 2) (text 9 9)] Blank).
Proof.
  exact (monthlyTotal_reads_amounts ex3 _ eq_refl eq_refl eq_refl).
Defined.

(** ** An amount that is not a number *)

Lemma Prim2SF_nan : Prim2SF PrimFloat.nan = S754_nan.
Proof. reflexivity. Qed.

Lemma add_nan_l (x : number) : (PrimFloat.nan + x)%float = PrimFloat.nan.
Proof.
  apply Prim2SF_inj. rewrite add_spec, Prim2SF_nan. reflexivity.
Qed.

Lemma add_nan_r (x : number) : (x + PrimFloat.nan)%float = PrimFloat.nan.
Proof.
  apply Prim2SF_inj. rewrite add_spec, Prim2SF_nan.
  destruct (Prim2SF x); reflexivity.
Qed.

Lemma mul_nan_l (x : number) : (PrimFloat.nan * x)%float = PrimFloat.nan.
Proof.
  apply Prim2SF_inj. rewrite mul_spec, Prim2SF_nan. reflexivity.
Qed.

Lemma dailyStep_from_nan (today payDay : Z) (l : list expense) :
  fold_left (dailyStep today payDay) l PrimFloat.nan = PrimFloat.nan.
Proof.
  induction l as [ | e l IH]; [reflexivity | ].
  cbn [fold_left]. unfold dailyStep at 2. rewrite add_nan_l. exact IH.
Qed.

Lemma dailyExpenses_nan (els : elements) (today payDay : Z) (e : expense)
    (i : option Z) :
  In e (dailyContainer els) -> amount e = Text PrimFloat.nan i ->
  dailyExpenses els today payDay = PrimFloat.nan.
Proof.
  intros I A. unfold dailyExpenses.
  destruct (in_split _ _ I) as (l1 & l2 & ->).
  rewrite fold_left_app. cbn [fold_left].
  unfold dailyStep at 2. rewrite A. cbn [getExpenseAmount].
  rewrite mul_nan_l, add_nan_r. apply dailyStep_from_nan.
Qed.

Lemma weeklyStep_from_nan (fuel : nat) (today pd : Z) (l : list expense) (r : number) :
  reduceM (weeklyStep fuel today pd) l PrimFloat.nan = Some r -> r = PrimFloat.nan.
Proof.
  revert r. induction l as [ | e l IH]; intros r; cbn [reduceM].
  - intros E. injection E as <-. reflexivity.
  - unfold weeklyStep at 1.
    destruct (day e) as [ | f t]; [apply IH | ].
    destruct (weeklyOccurrences fuel today pd t); [ | discriminate].
    rewrite add_nan_l. apply IH.
Qed.

Lemma weeklyExpenses_nan (fuel : nat) (els : elements) (today payDay : Z)
    (e : expense) (i : option Z) (r : number) :
  In e (weeklyContainer els) -> amount e = Text PrimFloat.nan i ->
  day e <> Blank ->
  weeklyExpenses fuel els today payDay = Some r -> r = PrimFloat.nan.
Proof.
  intros I A D. unfold weeklyExpenses.
  destruct (in_split _ _ I) as (l1 & l2 & ->).
  generalize PrimFloat.zero. induction l1 as [ | x l1 IH]; intros acc.
  - cbn [app reduceM]. unfold weeklyStep at 1. rewrite A.
    destruct (day e) as [ | f t]; [contradiction | ].
    destruct (weeklyOccurrences fuel today (payDayDate today payDay) t);
      [ | discriminate].
    cbn [getExpenseAmount]. rewrite mul_nan_l, add_nan_r.
    apply weeklyStep_from_nan.
  - cbn [app reduceM].
    destruct (weeklyStep fuel today (payDayDate today payDay) acc x);
      [apply IH | discriminate].
Qed.

(** X10: an amount that is text and not a number spoils the whole projection:
    when a daily item, or a weekly item with a day chosen, has such an amount,
    every result that the projection returns is [NaN], at any date, with any
    pay day and whatever the other items are. *)
Theorem projection_NaN_spreads (fuel : nat) (els : elements) (today payDay : Z)
    (e : expense) (i : option Z) (r : number) :
  In e (dailyContainer els)
  \/ (In e (weeklyContainer els) /\ day e <> Blank) ->
  amount e = Text PrimFloat.nan i ->
  calculateExpensesUntilPayday fuel els today payDay = Some r ->
  r = PrimFloat.nan.
Proof.
  intros W A. unfold calculateExpensesUntilPayday.
  destruct (weeklyExpenses fuel els today payDay) as [w | ] eqn:E;
    [ | discriminate].
  intros R. injection R as <-.
  destruct W as [I | [I D]].
  - rewrite (dailyExpenses_nan els today payDay e i I A).
    rewrite !add_nan_l. reflexivity.
  - rewrite (weeklyExpenses_nan fuel els today payDay e i w I A D E).
    rewrite add_nan_r, add_nan_l. reflexivity.
Qed.

Lemma projection_NaN_spreads_witness :
  let els := mkElements [mkExpense junk (text 50 50) (text 20 20)]
               [mkExpense junk (text 10 10) (text 3 3)]
               [mkExpense junk (text 2 2) Blank; mkExpense junk junk Blank]
               (text 25 25) in
  let today := Date.at_clock 2024 1 10 9 30 in
  In (mkExpense junk junk Blank) (dailyContainer els)
  /\ calculateExpensesUntilPayday 8 els today 25 = Some PrimFloat.nan
  /\ PrimFloat.nan = PrimFloat.nan.
Proof.
  intros els today.
  assert (I : In (mkExpense junk junk Blank) (dailyContainer els))
    by (right; left; reflexivity).
  assert (E : calculateExpensesUntilPayday 8 els today 25 = Some PrimFloat.nan)
    by (vm_compute; reflexivity).
  split; [exact I | split; [exact E | ]].
  exact (projection_NaN_spreads 8 els today 25 (mkExpense junk junk Blank)
           None PrimFloat.nan (or_introl I) eq_refl E).
Defined.

(** ** Saving and loading *)

Lemma expense_eta (e : expense) : mkExpense (name e) (amount e) (day e) = e.
Proof. destruct e. reflexivity. Qed.

Lemma extractItem_monthly (e : expense) :
  extractItem ["monthly-name"; "monthly-amount"; "monthly-day"]%string
    (controls "monthly" true e)
  = if someFilled true e then Some (savedItem true e) else None.
Proof. destruct e as [[ | ? ?] [ | ? ?] [ | ? ?]]; reflexivity. Qed.

Lemma extractItem_weekly (e : expense) :
  extractItem ["weekly-name"; "weekly-amount"; "weekly-day"]%string
    (controls "weekly" true e)
  = if someFilled true e then Some (savedItem true e) else None.
Proof. destruct e as [[ | ? ?] [ | ? ?] [ | ? ?]]; reflexivity. Qed.

Lemma extractItem_daily (e : expense) :
  extractItem ["daily-name"; "daily-amount"]%string (controls "daily" false e)
  = if someFilled false e then Some (savedItem false e) else None.
Proof. destruct e as [[ | ? ?] [ | ? ?] d]; reflexivity. Qed.

Lemma extractExpenseData_filter (fields : list string) (kind : string)
    (hasDay : bool) (l : list expense) :
  (forall e, extractItem fields (controls kind hasDay e)
             = if someFilled hasDay e then Some (savedItem hasDay e) else None) ->
  extractExpenseData (map (controls kind hasDay) l) fields
  = map (savedItem hasDay) (filter (someFilled hasDay) l).
Proof.
  intros E. unfold extractExpenseData.
  induction l as [ | e l IH]; [reflexivity | ].
  cbn [map flat_map filter]. rewrite E, IH.
  destruct (someFilled hasDay e); reflexivity.
Qed.

Lemma saveToLocalStorage_saved (els : elements) :
  saveToLocalStorage els
  = Saved.mk (map (savedItem true) (filter (someFilled true) (monthlyContainer els)))
      (map (savedItem true) (filter (someFilled true) (weeklyContainer els)))
      (map (savedItem false) (filter (someFilled false) (dailyContainer els)))
      (Some (payDayInput els)).
Proof.
  unfold saveToLocalStorage.
  rewrite (extractExpenseData_filter _ "monthly" true) by apply extractItem_monthly.
  rewrite (extractExpenseData_filter _ "weekly" true) by apply extractItem_weekly.
  rewrite (extractExpenseData_filter _ "daily" false) by apply extractItem_daily.
  rewrite formGet_payDay. reflexivity.
Qed.

Lemma savedItem_filled (hasDay : bool) (e : expense) :
  someFilled hasDay e = true ->
  existsb (fun kv : string * value => isFilled (snd kv)) (savedItem hasDay e) = true.
Proof.
  unfold someFilled, savedItem.
  destruct hasDay, (name e), (amount e), (day e); cbn; intros H;
    solve [reflexivity | discriminate].
Qed.

(** X11: what is saved is, for each container and in the order of the page,
    the name, the amount and (but for daily items) the day of every item that
    has some text in one of them; an item whose saved controls are all empty
    is left out, so that no saved record is empty; the pay day is saved as the
    select holds it. *)
Theorem saved_data (els : elements) :
  saveToLocalStorage els
  = Saved.mk (map (savedItem true) (filter (someFilled true) (monthlyContainer els)))
      (map (savedItem true) (filter (someFilled true) (weeklyContainer els)))
      (map (savedItem false) (filter (someFilled false) (dailyContainer els)))
      (Some (payDayInput els))
  /\ Forall (fun o : object =>
               existsb (fun kv => isFilled (snd kv)) o = true)
       (Saved.monthlyExpenses (saveToLocalStorage els)
        ++ Saved.weeklyExpenses (saveToLocalStorage els)
        ++ Saved.dailyExpenses (saveToLocalStorage els)).
Proof.
  split; [apply saveToLocalStorage_saved | ].
  rewrite saveToLocalStorage_saved.
  cbn [Saved.monthlyExpenses Saved.weeklyExpenses Saved.dailyExpenses].
  repeat (apply Forall_app; split);
    apply Forall_forall; intros o I; apply in_map_iff in I;
    destruct I as (e & <- & I); apply filter_In in I;
    apply savedItem_filled, I.
Qed.

Lemma createExpenseItem_saved_day (pg : templates) (kind : string) (t e : expense) :
  String.eqb (kind ++ "-amount") (kind ++ "-name") = false ->
  String.eqb (kind ++ "-day") (kind ++ "-name") = false ->
  String.eqb (kind ++ "-day") (kind ++ "-amount") = false ->
  createExpenseItem pg kind true t
    [ ((kind ++ "-name")%string, formGet (savedItem true e) "name");
      ((kind ++ "-amount")%string, formGet (savedItem true e) "amount");
      ((kind ++ "-day")%string, formGet (savedItem true e) "day") ]
  = e.
Proof.
  intros N1 N2 N3. unfold createExpenseItem, setControl.
  cbn [fold_left fst snd savedItem app formGet].
  change (String.eqb "name" "name") with true.
  change (String.eqb "name" "amount") with false.
  change (String.eqb "name" "day") with false.
  change (String.eqb "amount" "amount") with true.
  change (String.eqb "amount" "day") with false.
  change (String.eqb "day" "day") with true.
  cbn iota. rewrite !String.eqb_refl, N1, N2, N3. cbn [andb name amount day].
  apply expense_eta.
Qed.

(** The page that loading the saved data of [els] builds on a fresh page. *)
Lemma load_saved (pg : templates) (els : elements) (p : value) :
  loadFromLocalStorage pg (Some (saveToLocalStorage els)) (freshPage p)
  = mkElements (filter (someFilled true) (monthlyContainer els))
      (filter (someFilled true) (weeklyContainer els))
      (map (fun e => mkExpense (name e) (amount e) (day (dailyTemplate pg)))
         (filter (someFilled false) (dailyContainer els)))
      (if isFilled (payDayInput els) then payDayInput els else p).
Proof.
  rewrite saveToLocalStorage_saved. unfold loadFromLocalStorage, loadExpenses.
  cbn [Saved.monthlyExpenses Saved.weeklyExpenses Saved.dailyExpenses
       Saved.payDay freshPage monthlyContainer weeklyContainer dailyContainer
       payDayInput app].
  rewrite !map_map. f_equal.
  - rewrite <- (map_id (filter (someFilled true) (monthlyContainer els))) at 2.
    apply map_ext. intros e. apply createExpenseItem_saved_day; reflexivity.
  - rewrite <- (map_id (filter (someFilled true) (weeklyContainer els))) at 2.
    apply map_ext. intros e. apply createExpenseItem_saved_day; reflexivity.
Qed.

Lemma filter_idem {A : Type} (f : A -> bool) (l : list A) :
  filter f (filter f l) = filter f l.
Proof.
  induction l as [ | x l IH]; [reflexivity | ].
  cbn [filter]. destruct (f x) eqn:E; [ | exact IH].
  cbn [filter]. rewrite E, IH. reflexivity.
Qed.

(** X12: saving a page, loading what was saved on a fresh page and saving
    again stores the same expenses, whatever the templates hold; the pay day
    is the same too when the select was not blank, and otherwise the one of
    the fresh page. *)
Theorem save_load_save (pg : templates) (els : elements) (p : value) :
  let reloaded :=
    loadFromLocalStorage pg (Some (saveToLocalStorage els)) (freshPage p) in
  Saved.monthlyExpenses (saveToLocalStorage reloaded)
  = Saved.monthlyExpenses (saveToLocalStorage els)
  /\ Saved.weeklyExpenses (saveToLocalStorage reloaded)
     = Saved.weeklyExpenses (saveToLocalStorage els)
  /\ Saved.dailyExpenses (saveToLocalStorage reloaded)
     = Saved.dailyExpenses (saveToLocalStorage els)
  /\ Saved.payDay (saveToLocalStorage reloaded)
     = Some (if isFilled (payDayInput els) then payDayInput els else p).
Proof.
  cbv zeta. rewrite load_saved, !saveToLocalStorage_saved.
  cbn [Saved.monthlyExpenses Saved.weeklyExpenses Saved.dailyExpenses
       Saved.payDay monthlyContainer weeklyContainer dailyContainer payDayInput].
  rewrite !filter_idem.
  split; [reflexivity | split; [reflexivity | split; [ | reflexivity]]].
  induction (dailyContainer els) as [ | e l IH]; [reflexivity | ].
  cbn [filter]. destruct (someFilled false e) eqn:E; [ | exact IH].
  cbn [map filter]. unfold someFilled at 1. cbn [name amount andb].
  unfold someFilled in E. cbn [andb] in E. rewrite E.
  cbn [map]. f_equal. exact IH.
Qed.

(** X13: a page on which no item has all its saved controls empty, and whose
    pay-day select is not blank, shows the same two totals after it is saved
    and loaded on a fresh page, at any date and whatever the templates
    hold. *)
Theorem reload_keeps_totals (fuel : nat) (pg : templates) (els : elements)
    (p : value) (today : Z) :
  forallb (someFilled true) (monthlyContainer els) = true ->
  forallb (someFilled true) (weeklyContainer els) = true ->
  forallb (someFilled false) (dailyContainer els) = true ->
  isFilled (payDayInput els) = true ->
  updateTotals fuel
    (loadFromLocalStorage pg (Some (saveToLocalStorage els)) (freshPage p)) today
  = updateTotals fuel els today.
Proof.
  intros M W D P. rewrite load_saved, P.
  rewrite !forallb_filter_id by assumption.
  set (reset := fun e => mkExpense (name e) (amount e) (day (dailyTemplate pg))).
  assert (F : FormData (mkElements (monthlyContainer els) (weeklyContainer els)
                          (map reset (dailyContainer els)) (payDayInput els))
              = FormData els).
  { unfold FormData.
    cbn [monthlyContainer weeklyContainer dailyContainer payDayInput].
    assert (Q : flat_map (controls "daily" false) (map reset (dailyContainer els))
                = flat_map (controls "daily" false) (dailyContainer els)).
    { clear D. induction (dailyContainer els) as [ | e l IH]; [reflexivity | ].
      cbn [map flat_map]. rewrite IH. reflexivity. }
    rewrite Q. reflexivity. }
  unfold updateTotals. rewrite F. f_equal.
  unfold calculateExpensesUntilPayday, weeklyExpenses, monthlyExpenses,
    dailyExpenses.
  cbn [monthlyContainer weeklyContainer dailyContainer].
  assert (G : forall acc,
             fold_left (dailyStep today (payDayOf (FormData els)))
               (map reset (dailyContainer els)) acc
             = fold_left (dailyStep today (payDayOf (FormData els)))
                 (dailyContainer els) acc).
  { clear D F. induction (dailyContainer els) as [ | e l IH]; intros acc;
      [reflexivity | ].
    cbn [map fold_left]. rewrite IH. reflexivity. }
  rewrite G. reflexivity.
Qed.

Lemma reload_keeps_totals_witness :
  forallb (someFilled true) (monthlyContainer ex3) = true
  /\ forallb (someFilled true) (weeklyContainer ex3) = true
  /\ forallb (someFilled false) (dailyContainer ex3) = true
  /\ isFilled (payDayInput ex3) = true
  /\ updateTotals 8
       (loadFromLocalStorage (mkTemplates (mkExpense Blank Blank (text 1 1))
                                (mkExpense Blank Blank (text 1 1))
                                (mkExpense Blank Blank Blank) (fun _ => junk))
          (Some (saveToLocalStorage ex3)) (freshPage (text 25 25)))
       (Date.at_clock 2024 1 10 9 30)
     = updateTotals 8 ex3 (Date.at_clock 2024 1 10 9 30).
Proof.
  assert (M : forallb (someFilled true) (monthlyContainer ex3) = true) by reflexivity.
  assert (W : forallb (someFilled true) (weeklyContainer ex3) = true) by reflexivity.
  assert (D : forallb (someFilled false) (dailyContainer ex3) = true) by reflexivity.
  assert (P : isFilled (payDayInput ex3) = true) by reflexivity.
  split; [exact M | split; [exact W | split; [exact D | split; [exact P | ]]]].
  exact (reload_keeps_totals 8 _ ex3 _ _ M W D P).
Defined.

(** X14: adding an item from a template whose saved controls are all empty
    does not change what is saved, for each of the three containers. *)
Theorem add_blank_item_saves_same (pg : templates) (els : elements) :
  (someFilled true (monthlyTemplate pg) = false ->
   saveToLocalStorage
     (mkElements
        (addExpense pg "monthly" true (monthlyTemplate pg) (monthlyContainer els))
        (weeklyContainer els) (dailyContainer els) (payDayInput els))
   = saveToLocalStorage els)
  /\ (someFilled true (weeklyTemplate pg) = false ->
      saveToLocalStorage
        (mkElements (monthlyContainer els)
           (addExpense pg "weekly" true (weeklyTemplate pg) (weeklyContainer els))
           (dailyContainer els) (payDayInput els))
      = saveToLocalStorage els)
  /\ (someFilled false (dailyTemplate pg) = false ->
      saveToLocalStorage
        (mkElements (monthlyContainer els) (weeklyContainer els)
           (addExpense pg "daily" false (dailyTemplate pg) (dailyContainer els))
           (payDayInput els))
      = saveToLocalStorage els).
Proof.
  split; [ | split]; intros B; rewrite !saveToLocalStorage_saved;
    cbn [monthlyContainer weeklyContainer dailyContainer payDayInput];
    unfold addExpense, createExpenseItem; cbn [fold_left];
    rewrite filter_app; cbn [filter]; rewrite B, app_nil_r; reflexivity.
Qed.

Lemma add_blank_item_saves_same_witness :
  let pg := mkTemplates (mkExpense Blank Blank (text 1 1))
              (mkExpense Blank Blank (text 1 1))
              (mkExpense Blank Blank Blank) (fun _ => junk) in
  someFilled false (dailyTemplate pg) = false
  /\ saveToLocalStorage
       (mkElements (monthlyContainer ex3) (weeklyContainer ex3)
          (addExpense pg "daily" false (dailyTemplate pg) (dailyContainer ex3))
          (payDayInput ex3))
     = saveToLocalStorage ex3.
Proof.
  intros pg.
  assert (B : someFilled false (dailyTemplate pg) = false) by reflexivity.
  split; [exact B | ].
  exact (proj2 (proj2 (add_blank_item_saves_same pg ex3)) B).
Defined.

(** * The projection in a time zone *)

(** ** A zone of constant offset *)

Section FixedZone.

Variable c : Z.














End FixedZone.

(** ** The clock time and the total *)




(** ** The weekly rule over the page *)

Lemma fold_left_ext_in {A B : Type} (f g : B -> A -> B) (l : list A) (b : B) :
  (forall acc x, In x l -> f acc x = g acc x) -> fold_left f l b = fold_left g l b.
Proof.
  revert b. induction l as [ | x l IH]; intros b E; cbn; [reflexivity | ].
  rewrite E by (left; reflexivity).
  apply IH. intros acc y I. apply E. right. exact I.
Qed.

Lemma reduceM_total {A B : Type} (f : B -> A -> option B) (g : B -> A -> B)
    (l : list A) (b : B) :
  (forall acc x, In x l -> f acc x = Some (g acc x)) ->
  reduceM f l b = Some (fold_left g l b).
Proof.
  revert b. induction l as [ | x l IH]; intros b E; cbn; [reflexivity | ].
  rewrite E by (left; reflexivity).
  apply IH. intros acc y I. apply E. right. exact I.
Qed.

(** C5: on a page whose weekly items have no day or a weekday (0..6), and
    with enough tests for the loops, the weekly part of the projection is the
    total of what the weekly rule gives item by item against the payday date
    of the projection, and the projection is the daily part plus that plus
    the monthly part.  By the rule an item without a day adds nothing; an item
    of day [target] adds its amount times [n], where the first occurrence is
    [k >= 1] days after today, [k] being the least number of days after which
    the weekday is [target], and [n] is the number of the dates [first],
    [first] + 7 days, ... that are before the payday date; [n] is 1 when the
    payday date is after [first] and not more than 7 days after it. *)
Theorem weekly_rule (fuel : nat) (els : elements) (today payDay : Z) :
  Forall weekdayOrBlank (weeklyContainer els) ->
  (weeklyFuel today (payDayDate today payDay) <= fuel)%nat ->
  weeklyExpenses fuel els today payDay
  = Some (fold_left (weeklyContribution today payDay) (weeklyContainer els)
            PrimFloat.zero)
  /\ calculateExpensesUntilPayday fuel els today payDay
     = Some (dailyExpenses els today payDay
             + fold_left (weeklyContribution today payDay) (weeklyContainer els)
                 PrimFloat.zero
             + monthlyExpenses els today payDay)%float
  /\ (forall total e,
        day e = Blank -> weeklyContribution today payDay total e = total)
  /\ (forall total e f target,
        day e = Text f (Some target) -> 0 <= target <= 6 ->
        let k := daysToNext (Date.getDay today) target in
        let first := today + k * MS_PER_DAY in
        let n := occurrencesBefore (payDayDate today payDay) first in
        weeklyContribution today payDay total e
        = (total + getExpenseAmount (amount e) * Num.of_Z n)%float
        /\ (1 <= k /\ Date.getDay first = target
            /\ forall j, 1 <= j < k ->
                         Date.getDay (today + j * MS_PER_DAY) <> target)
        /\ (0 <= n
            /\ forall i, 0 <= i ->
                 (first + i * (DAYS_IN_WEEK * MS_PER_DAY)
                  < payDayDate today payDay <-> i < n))
        /\ (first < payDayDate today payDay <= first + DAYS_IN_WEEK * MS_PER_DAY
            -> n = 1)).
Proof.
  intros W F. rewrite Forall_forall in W.
  assert (E : weeklyExpenses fuel els today payDay
              = Some (fold_left (weeklyContribution today payDay)
                        (weeklyContainer els) PrimFloat.zero)).
  { unfold weeklyExpenses. apply reduceM_total. intros acc x I.
    unfold weeklyContribution.
    destruct (W x I) as [B | (f & t & D & R)].
    - rewrite (proj1 (weeklyStep_rule fuel today (payDayDate today payDay) acc x) B).
      rewrite B. reflexivity.
    - rewrite D.
      exact (proj1 (proj2 (proj2
               (proj2 (weeklyStep_rule fuel today (payDayDate today payDay) acc x)
                  f t D R F)))). }
  split; [exact E | split; [ | split]].
  - unfold calculateExpensesUntilPayday. rewrite E. reflexivity.
  - intros total e B. unfold weeklyContribution. rewrite B. reflexivity.
  - intros total e f target D R k first n.
    destruct (proj2 (weeklyStep_rule (weeklyFuel today (payDayDate today payDay))
                       today (payDayDate today payDay) total e) f target D R
                (le_n _)) as (K & N & _ & U).
    split; [ | split; [exact K | split; [exact N | exact U]]].
    unfold weeklyContribution. rewrite D. reflexivity.
Qed.

Lemma weekly_rule_witness :
  let today := Date.at_clock 2024 1 10 9 30 in
  Forall weekdayOrBlank (weeklyContainer ex3)
  /\ (weeklyFuel today (payDayDate today 25) <= 20)%nat
  /\ weeklyExpenses 20 ex3 today 25
     = Some (fold_left (weeklyContribution today 25) (weeklyContainer ex3)
               PrimFloat.zero)
  /\ calculateExpensesUntilPayday 20 ex3 today 25
     = Some (dailyExpenses ex3 today 25
             + fold_left (weeklyContribution today 25) (weeklyContainer ex3)
                 PrimFloat.zero
             + monthlyExpenses ex3 today 25)%float.
Proof.
  intros today.
  assert (W : Forall weekdayOrBlank (weeklyContainer ex3)).
  { apply Forall_cons; [ | apply Forall_nil].
    right. exists 3%float, 3. split; [reflexivity | lia]. }
  assert (F : (weeklyFuel today (payDayDate today 25) <= 20)%nat)
    by (vm_compute; lia).
  split; [exact W | split; [exact F | split]].
  - exact (proj1 (weekly_rule 20 ex3 today 25 W F)).
  - exact (proj1 (proj2 (weekly_rule 20 ex3 today 25 W F))).
Defined.

(** ** The day count in a time zone *)

(** X1: in a time zone, for a local clock reading at or after the epoch and a
    pay day from 1 to 31, when the zone's offset at the payday's midnight is
    the one at today's reading (no change of offset in between), the number of
    days counted for the daily expenses is the pay day less today's day of the
    month, the length of today's month being added when the pay day is not
    after today's day; it then lies between 1 and 31, so that
    [Math.max(0, daysUntilPayday)] does not change it. *)
Theorem daysUntilPayday_value (z : zone) (today payDay : Z) :
  let here := Zoned.LocalTime z today in
  0 <= here -> 1 <= payDay <= 31 ->
  tzaOfLocal z (payDayDate here payDay) = tzaOfUTC z today ->
  tzaOfUTC z (Zoned.payDayDate z today payDay) = tzaOfUTC z today ->
  Zoned.daysUntilPayday z today payDay
  = position (Date.getDate here)
      (Date.DaysInMonth (Date.getFullYear here) (Date.getMonth here)) payDay
    - Date.getDate here
  /\ 1 <= Zoned.daysUntilPayday z today payDay <= 31
  /\ Z.max 0 (Zoned.daysUntilPayday z today payDay)
     = Zoned.daysUntilPayday z today payDay.
Proof.
  intros here H0 R L U.
  assert (P : Zoned.payDayDate z today payDay
              = payDayDate here payDay - tzaOfUTC z today).
  { rewrite <- L. unfold Zoned.payDayDate, payDayDate, Zoned.getDate,
      Zoned.getMonth, Zoned.getFullYear, Zoned.make, Zoned.UTC.
    fold here. cbv zeta.
    destruct (payDay <=? Date.getDate here); reflexivity. }
  assert (E : Zoned.daysUntilPayday z today payDay = daysUntilPayday here payDay).
  { unfold Zoned.daysUntilPayday, daysUntilPayday. cbv zeta.
    unfold Zoned.getMonth at 1. unfold Zoned.LocalTime at 1.
    rewrite U, P.
    replace (payDayDate here payDay - tzaOfUTC z today + tzaOfUTC z today)
      with (payDayDate here payDay) by lia.
    replace (payDayDate here payDay - tzaOfUTC z today - today)
      with (payDayDate here payDay - here) by (unfold here, Zoned.LocalTime; lia).
    reflexivity. }
  pose proof (daysUntilPayday_range here payDay H0 R) as B.
  rewrite E.
  split; [apply daysUntilPayday_position, H0 | split; [exact B | lia]].
Qed.

Lemma daysUntilPayday_value_witness :
  let today := Date.at_clock 2024 10 20 8 30 in
  let here := Zoned.LocalTime london2024 today in
  0 <= here /\ 1 <= 25 <= 31
  /\ tzaOfLocal london2024 (payDayDate here 25) = tzaOfUTC london2024 today
  /\ tzaOfUTC london2024 (Zoned.payDayDate london2024 today 25)
     = tzaOfUTC london2024 today
  /\ 1 <= Zoned.daysUntilPayday london2024 today 25 <= 31.
Proof.
  intros today here.
  assert (H0 : 0 <= here) by (vm_compute; discriminate).
  assert (R : 1 <= 25 <= 31) by lia.
  assert (L : tzaOfLocal london2024 (payDayDate here 25) = tzaOfUTC london2024 today)
    by (vm_compute; reflexivity).
  assert (U : tzaOfUTC london2024 (Zoned.payDayDate london2024 today 25)
              = tzaOfUTC london2024 today) by (vm_compute; reflexivity).
  split; [exact H0 | split; [exact R | split; [exact L | split; [exact U | ]]]].
  exact (proj1 (proj2 (daysUntilPayday_value london2024 today 25 H0 R L U))).
Defined.

(** Across a change of offset the count leaves that range: in London on
    1 October 2024 at 00:30, with pay day 1, the payday of 1 November is 31
    days and half an hour ahead and 32 days are counted. *)
Example thirty_two_days :
  civil (Zoned.LocalTime london2024 (Date.at_clock 2024 9 30 23 30)) = (2024, 9, 1)
  /\ Zoned.daysUntilPayday london2024 (Date.at_clock 2024 9 30 23 30) 1 = 32.
Proof. split; vm_compute; reflexivity. Qed.
